(** * toil_scripts.tools.preprocessing: task wrappers and pipeline wiring

    A shallow embedding of [src/toil_scripts/tools/preprocessing.py].

    Every wrapper of the module stages files out of Toil's global file store
    into a scratch directory, calls [docker_call], and writes the outputs of
    the tool back to the store.  The two pipeline builders wrap the
    wrappers as jobs and wire them with [addChild].

    The wrappers are embedded as computations in a monad that threads the
    file store and the scratch directory, can raise, and records every call
    made to a collaborator.  The builders are embedded as state passing over
    the job graph under construction. *)

From Stdlib Require Import Ascii.
From stdpp Require Import base option list strings gmap pretty.

Local Open Scope string_scope.
Local Open Scope Z_scope.
Local Open Scope list_scope.

(** ** Python values *)

(** The values the module handles: file-store IDs and adapter sequences are
    [str], [cores] is an [int], [unsafe] and [mock] are [bool], and an
    absent read file is [None]. *)
Inductive pyval : Type :=
  | VNone
  | VBool (b : bool)
  | VInt (z : Z)
  | VStr (s : string).

Global Instance pyval_eq_dec : EqDecision pyval.
Proof. solve_decision. Defined.

(** Truth value of an object, as tested by [if x:] and [x and y]. *)
Definition truthy (v : pyval) : bool :=
  match v with
  | VNone => false
  | VBool b => b
  | VInt z => negb (z =? 0)
  | VStr s => negb (String.eqb s "")
  end.

(** [str(x)], which is also what ['{}'.format(x)] inserts. *)
Definition str (v : pyval) : string :=
  match v with
  | VNone => "None"
  | VBool true => "True"
  | VBool false => "False"
  | VInt z => pretty z
  | VStr s => s
  end.

(** [s.startswith('/')] and [s.endswith('/')]. *)
Definition starts_with_sep (s : string) : bool :=
  match s with
  | String c _ => Ascii.eqb c "/"%char
  | EmptyString => false
  end.

Fixpoint ends_with_sep (s : string) : bool :=
  match s with
  | EmptyString => false
  | String c EmptyString => Ascii.eqb c "/"%char
  | String _ rest => ends_with_sep rest
  end.

(** [os.path.join(a, p)] (posixpath) for one component [p]. *)
Definition os_path_join (a p : string) : string :=
  if starts_with_sep p then p
  else if String.eqb a "" || ends_with_sep a then a +:+ p
  else a +:+ "/" +:+ p.

(** [needle in s] on strings. *)
Fixpoint occurs_in (needle s : string) : bool :=
  String.prefix needle s ||
  match s with
  | EmptyString => false
  | String _ rest => occurs_in needle rest
  end.

(** ** The collaborators *)

(** The keyword arguments of one [docker_call].  A keyword the caller leaves
    out is [None] here: its default belongs to [docker_call]. *)
Record docker_request : Type := DockerRequest {
  tool : string;
  work_dir : string;
  parameters : list pyval;
  inputs : option (list string);
  outputs : option (list (string * pyval));
  env : option (list (string * string));
  mock : option bool
}.

(** What the wrappers cannot decide: the worker node and the tools. *)
Record host : Type := Host {
  (** [multiprocessing.cpu_count()] *)
  cpu_count : Z;
  (** the directory [job.fileStore.getLocalTempDir()] hands out *)
  local_temp_dir : string;
  (** the effect of a tool on the local files; [None] is a failed call *)
  run_tool : docker_request → gmap string string → option (gmap string string);
  (** the FileStoreID the store issues for the next written file *)
  new_file_id : gmap string string → string
}.

(** The global file store and the local file system, by path. *)
Record machine : Type := Machine {
  file_store : gmap string string;
  local_files : gmap string string
}.

(** One call to a collaborator, with how it ended. *)
Inductive event : Type :=
  | GetLocalTempDir (dir : string)
  | LogToMaster (msg : string)
  | CpuCount (n : Z)
  | ReadGlobalFile (id : pyval) (path : string) (ok : bool)
  | DockerCall (req : docker_request) (ok : bool)
  | WriteGlobalFile (path : string) (id : option string)
  | DeleteGlobalFile (id : pyval) (ok : bool).

Inductive exn : Type :=
  | UserError (msg : string)
  | NoSuchFileStoreID (id : pyval)
  | NoSuchLocalFile (path : string)
  | CalledProcessError (req : docker_request).

Inductive outcome (A : Type) : Type :=
  | Returned (a : A)
  | Raised (e : exn).
Arguments Returned {A} a.
Arguments Raised {A} e.

(** A computation: from a machine to how it ended, the machine it left and
    the calls it made, oldest first. *)
Definition M (A : Type) : Type := machine → outcome A * machine * list event.

Definition ret {A} (a : A) : M A := λ m, (Returned a, m, []).

Definition bind {A B} (c : M A) (k : A → M B) : M B := λ m,
  match c m with
  | (Returned a, m1, t1) =>
      match k a m1 with
      | (r, m2, t2) => (r, m2, t1 ++ t2)
      end
  | (Raised e, m1, t1) => (Raised e, m1, t1)
  end.

Definition raise {A} (e : exn) : M A := λ m, (Raised e, m, []).

Notation "x <- c ;; k" := (bind c (λ x, k))
  (at level 100, c at next level, right associativity, only parsing).
Notation "c ;;; k" := (bind c (λ _, k))
  (at level 100, right associativity, only parsing).

(** The file the store holds under [id]; only a [str] can be an ID. *)
Definition fetch (store : gmap string string) (id : pyval) : option string :=
  match id with
  | VStr s => store !! s
  | _ => None
  end.

Section Collaborators.
Variable H : host.

Definition getLocalTempDir : M string := λ m,
  (Returned (local_temp_dir H), m, [GetLocalTempDir (local_temp_dir H)]).

Definition logToMaster (msg : string) : M unit := λ m,
  (Returned (), m, [LogToMaster msg]).

Definition multiprocessing_cpu_count : M Z := λ m,
  (Returned (cpu_count H), m, [CpuCount (cpu_count H)]).

(** [job.fileStore.readGlobalFile(id, path)]: have the stored file at
    [path]; an ID the store does not hold raises.  The local file is kept
    here as a copy.  Toil may link it to the stored file instead:
    [seen_through_links] reads a run that way. *)
Definition readGlobalFile (id : pyval) (path : string) : M unit := λ m,
  match fetch (file_store m) id with
  | Some data =>
      (Returned (),
       Machine (file_store m) (<[path := data]> (local_files m)),
       [ReadGlobalFile id path true])
  | None => (Raised (NoSuchFileStoreID id), m, [ReadGlobalFile id path false])
  end.

(** [job.fileStore.writeGlobalFile(path)]: store the local file under the
    ID the store issues and return that ID; a missing file raises. *)
Definition writeGlobalFile (path : string) : M string := λ m,
  match local_files m !! path with
  | Some data =>
      let id := new_file_id H (file_store m) in
      (Returned id,
       Machine (<[id := data]> (file_store m)) (local_files m),
       [WriteGlobalFile path (Some id)])
  | None => (Raised (NoSuchLocalFile path), m, [WriteGlobalFile path None])
  end.

(** [job.fileStore.deleteGlobalFile(id)], the one operation of the store
    that takes an entry away.  No function of the module calls it. *)
Definition deleteGlobalFile (id : pyval) : M unit := λ m,
  match id with
  | VStr s =>
      (Returned (), Machine (delete s (file_store m)) (local_files m),
       [DeleteGlobalFile id true])
  | _ => (Raised (NoSuchFileStoreID id), m, [DeleteGlobalFile id false])
  end.

(** Modelled from the spec: [docker_call] of [toil_scripts.lib.programs],
    which is not among the sources.  The spec has it as a
    container-invocation facility [invoke(tool_image, args, env,
    working_dir, declared_outputs) -> exit_status] that runs one tool to
    completion, blocking, and whose non-zero exit is the error.  What the
    tool does to the local files is the host's. *)
Definition docker_call (req : docker_request) : M unit := λ m,
  match run_tool H req (local_files m) with
  | Some files' => (Returned (), Machine (file_store m) files', [DockerCall req true])
  | None => (Raised (CalledProcessError req), m, [DockerCall req false])
  end.

(** Modelled from the spec: [require] of [toil_scripts.lib], which is not
    among the sources.  The spec has the one precondition of the module
    as: paired-end adapter trimming requires both adapter sequences,
    else fails immediately with a configuration error. *)
Definition require (expression : pyval) (message : string) : M unit :=
  if truthy expression then ret () else raise (UserError message).

End Collaborators.

(** ** The wrappers *)

Section Wrappers.
Variable H : host.

(** [for file_store_id, name in zip(file_ids, inputs):
       job.fileStore.readGlobalFile(file_store_id, os.path.join(work_dir, name))] *)
Fixpoint read_inputs (work_dir : string) (pairs : list (pyval * string)) : M unit :=
  match pairs with
  | [] => ret ()
  | (file_store_id, name) :: rest =>
      readGlobalFile file_store_id (os_path_join work_dir name) ;;;
      read_inputs work_dir rest
  end.

Definition run_cutadapt (r1_id r2_id fwd_3pr_adapter rev_3pr_adapter : pyval)
  : M (string * option string) :=
  work_dir <- getLocalTempDir H ;;
  (if truthy r2_id
   then require rev_3pr_adapter "Paired end data requires a reverse 3' adapter sequence."
   else ret ()) ;;;
  let parameters := [VStr "-a"; fwd_3pr_adapter; VStr "-m"; VStr "35"] in
  parameters <-
    (if truthy r1_id && truthy r2_id then
       readGlobalFile r1_id (os_path_join work_dir "R1.fastq") ;;;
       readGlobalFile r2_id (os_path_join work_dir "R2.fastq") ;;;
       ret (parameters ++ [VStr "-A"; rev_3pr_adapter;
                           VStr "-o"; VStr "/data/R1_cutadapt.fastq";
                           VStr "-p"; VStr "/data/R2_cutadapt.fastq";
                           VStr "/data/R1.fastq"; VStr "/data/R2.fastq"])
     else
       readGlobalFile r1_id (os_path_join work_dir "R1.fastq") ;;;
       ret (parameters ++ [VStr "-o"; VStr "/data/R1.fastq"; VStr "/data/R1.fastq"])) ;;
  docker_call H
    {| tool := "quay.io/ucsc_cgl/cutadapt:1.9--6bd44edd2b8f8f17e25c5a268fedaab65fa851d2";
       work_dir := work_dir; parameters := parameters;
       inputs := None; outputs := None; env := None; mock := None |} ;;;
  if truthy r1_id && truthy r2_id then
    r1_cut_id <- writeGlobalFile H (os_path_join work_dir "R1_cutadapt.fastq") ;;
    r2_cut_id <- writeGlobalFile H (os_path_join work_dir "R2_cutadapt.fastq") ;;
    ret (r1_cut_id, Some r2_cut_id)
  else
    r1_cut_id <- writeGlobalFile H (os_path_join work_dir "R1_cutadapt.fastq") ;;
    ret (r1_cut_id, None).

Definition run_samtools_faidx (ref_id : pyval) (mock : bool) : M string :=
  logToMaster "Created reference index" ;;;
  work_dir <- getLocalTempDir H ;;
  readGlobalFile ref_id (os_path_join work_dir "ref.fasta") ;;;
  let command := [VStr "faidx"; VStr "ref.fasta"] in
  let outputs := [("ref.fasta.fai", VNone)] in
  docker_call H
    {| work_dir := work_dir; parameters := command; mock := Some mock;
       outputs := Some outputs;
       tool := "quay.io/ucsc_cgl/samtools:0.1.19--dd5ac549b95eb3e5d166a5e310417ef13651994e";
       inputs := None; env := None |} ;;;
  writeGlobalFile H (os_path_join work_dir "ref.fasta.fai").

Definition run_samtools_index (bam_id : pyval) : M string :=
  work_dir <- getLocalTempDir H ;;
  readGlobalFile bam_id (os_path_join work_dir "sample.bam") ;;;
  let parameters := [VStr "index"; VStr "/data/sample.bam"] in
  docker_call H
    {| work_dir := work_dir; parameters := parameters;
       tool := "quay.io/ucsc_cgl/samtools:0.1.19--dd5ac549b95eb3e5d166a5e310417ef13651994e";
       inputs := None; outputs := None; env := None; mock := None |} ;;;
  writeGlobalFile H (os_path_join work_dir "sample.bam.bai").

Definition samtools_view (bam_id : pyval) (flag : pyval) (mock : bool) : M string :=
  work_dir <- getLocalTempDir H ;;
  readGlobalFile bam_id (os_path_join work_dir "sample.bam") ;;;
  let outputs := [("sample.output.bam", VNone)] in
  let outpath := os_path_join work_dir "sample.output.bam" in
  cores <- multiprocessing_cpu_count H ;;
  let command := [VStr "view";
                  VStr "-b";
                  VStr "-o"; VStr "/data/sample.output.bam";
                  VStr "-F"; VStr (str flag);
                  VStr "-@"; VStr (str (VInt cores));
                  VStr "/data/sample.bam"] in
  docker_call H
    {| work_dir := work_dir; parameters := command;
       tool := "quay.io/ucsc_cgl/samtools:1.3--256539928ea162949d8a65ca5c79a72ef557ce7c";
       outputs := Some outputs;
       mock := Some mock; inputs := None; env := None |} ;;;
  writeGlobalFile H outpath.

(** The default of [samtools_view]'s [flag]. *)
Definition samtools_view_default_flag : pyval := VStr "0".

Definition run_picard_create_sequence_dictionary (ref_id : pyval) (xmx : pyval) (mock : bool)
  : M string :=
  logToMaster "Created reference dictionary" ;;;
  work_dir <- getLocalTempDir H ;;
  readGlobalFile ref_id (os_path_join work_dir "ref.fasta") ;;;
  let command := [VStr "CreateSequenceDictionary"; VStr "R=ref.fasta"; VStr "O=ref.dict"] in
  let outputs := [("ref.dict", VNone)] in
  docker_call H
    {| work_dir := work_dir; parameters := command; mock := Some mock;
       outputs := Some outputs;
       env := Some [("JAVA_OPTS", "-Xmx" +:+ str xmx)];
       tool := "quay.io/ucsc_cgl/picardtools:1.95--dd5ac549b95eb3e5d166a5e310417ef13651994e";
       inputs := None |} ;;;
  writeGlobalFile H (os_path_join work_dir "ref.dict").

Definition picard_sort_sam (bam_id : pyval) (xmx : pyval) (mock : bool) : M (string * string) :=
  work_dir <- getLocalTempDir H ;;
  let outputs := [("sample.sorted.bam", VNone); ("sample.sorted.bai", VNone)] in
  readGlobalFile bam_id (os_path_join work_dir "sample.bam") ;;;
  let outpath_bam := os_path_join work_dir "sample.sorted.bam" in
  let outpath_bai := os_path_join work_dir "sample.sorted.bai" in
  let command := [VStr "SortSam";
                  VStr "INPUT=sample.bam";
                  VStr "OUTPUT=sample.sorted.bam";
                  VStr "SORT_ORDER=coordinate";
                  VStr "CREATE_INDEX=true"] in
  docker_call H
    {| work_dir := work_dir; parameters := command;
       env := Some [("JAVA_OPTS", "-Xmx" +:+ str xmx)];
       tool := "quay.io/ucsc_cgl/picardtools:1.95--dd5ac549b95eb3e5d166a5e310417ef13651994e";
       outputs := Some outputs; mock := Some mock; inputs := None |} ;;;
  bam_id <- writeGlobalFile H outpath_bam ;;
  bai_id <- writeGlobalFile H outpath_bai ;;
  ret (bam_id, bai_id).

Definition picard_mark_duplicates (bam_id bai_id : pyval) (xmx : pyval) (mock : bool)
  : M (string * string) :=
  work_dir <- getLocalTempDir H ;;
  let outputs := [("sample.mkdups.bam", VNone); ("sample.mkdups.bai", VNone)] in
  let outpath_bam := os_path_join work_dir "sample.mkdups.bam" in
  let outpath_bai := os_path_join work_dir "sample.mkdups.bai" in
  readGlobalFile bam_id (os_path_join work_dir "sample.sorted.bam") ;;;
  readGlobalFile bai_id (os_path_join work_dir "sample.sorted.bai") ;;;
  let command := [VStr "MarkDuplicates";
                  VStr "INPUT=sample.sorted.bam";
                  VStr "OUTPUT=sample.mkdups.bam";
                  VStr "METRICS_FILE=metrics.txt";
                  VStr "ASSUME_SORTED=true";
                  VStr "CREATE_INDEX=true"] in
  docker_call H
    {| work_dir := work_dir; parameters := command;
       env := Some [("JAVA_OPTS", "-Xmx" +:+ str xmx)];
       tool := "quay.io/ucsc_cgl/picardtools:1.95--dd5ac549b95eb3e5d166a5e310417ef13651994e";
       outputs := Some outputs; mock := Some mock; inputs := None |} ;;;
  bam_id <- writeGlobalFile H outpath_bam ;;
  bai_id <- writeGlobalFile H outpath_bai ;;
  ret (bam_id, bai_id).

(** The argument pair of GATK's unsafe mode. *)
Definition unsafe_arguments : list pyval := [VStr "-U"; VStr "ALLOW_SEQ_DICT_INCOMPATIBILITY"].

Definition run_realigner_target_creator
    (cores bam bai ref ref_dict fai phase mills mem : pyval) (unsafe mock : bool) : M string :=
  work_dir <- getLocalTempDir H ;;
  let file_ids := [ref; fai; ref_dict; bam; bai; phase; mills] in
  let inputs := ["ref.fasta"; "ref.fasta.fai"; "ref.dict"; "sample.bam"; "sample.bam.bai";
                 "phase.vcf"; "mills.vcf"] in
  read_inputs work_dir (zip file_ids inputs) ;;;
  let parameters := [VStr "-T"; VStr "RealignerTargetCreator";
                     VStr "-nt"; VStr (str cores);
                     VStr "-R"; VStr "/data/ref.fasta";
                     VStr "-I"; VStr "/data/sample.bam";
                     VStr "-known"; VStr "/data/phase.vcf";
                     VStr "-known"; VStr "/data/mills.vcf";
                     VStr "--downsampling_type"; VStr "NONE";
                     VStr "-o"; VStr "/data/sample.intervals"] in
  let parameters := if unsafe then parameters ++ unsafe_arguments else parameters in
  docker_call H
    {| tool := "quay.io/ucsc_cgl/gatk:3.5--dba6dae49156168a909c43330350c6161dc7ecc2";
       inputs := Some inputs;
       outputs := Some [("sample.intervals", VNone)]; mock := Some mock;
       work_dir := work_dir; parameters := parameters;
       env := Some [("JAVA_OPTS", "-Xmx" +:+ str mem)] |} ;;;
  writeGlobalFile H (os_path_join work_dir "sample.intervals").

Definition run_indel_realignment
    (intervals bam bai ref ref_dict fai phase mills mem : pyval) (unsafe mock : bool)
  : M (string * string) :=
  work_dir <- getLocalTempDir H ;;
  let file_ids := [ref; fai; ref_dict; intervals; bam; bai; phase; mills] in
  let inputs := ["ref.fasta"; "ref.fasta.fai"; "ref.dict"; "sample.intervals";
                 "sample.bam"; "sample.bam.bai"; "phase.vcf"; "mills.vcf"] in
  read_inputs work_dir (zip file_ids inputs) ;;;
  let parameters := [VStr "-T"; VStr "IndelRealigner";
                     VStr "-R"; VStr "/data/ref.fasta";
                     VStr "-I"; VStr "/data/sample.bam";
                     VStr "-known"; VStr "/data/phase.vcf";
                     VStr "-known"; VStr "/data/mills.vcf";
                     VStr "-targetIntervals"; VStr "/data/sample.intervals";
                     VStr "--downsampling_type"; VStr "NONE";
                     VStr "-maxReads"; VStr (str (VInt 720000));
                     VStr "-maxInMemory"; VStr (str (VInt 5400000));
                     VStr "-o"; VStr "/data/sample.indel.bam"] in
  let parameters := if unsafe then parameters ++ unsafe_arguments else parameters in
  docker_call H
    {| tool := "quay.io/ucsc_cgl/gatk:3.5--dba6dae49156168a909c43330350c6161dc7ecc2";
       inputs := Some inputs; mock := Some mock;
       outputs := Some [("sample.indel.bam", VNone); ("sample.indel.bai", VNone)];
       work_dir := work_dir; parameters := parameters;
       env := Some [("JAVA_OPTS", "-Xmx" +:+ str mem)] |} ;;;
  indel_bam <- writeGlobalFile H (os_path_join work_dir "sample.indel.bam") ;;
  indel_bai <- writeGlobalFile H (os_path_join work_dir "sample.indel.bai") ;;
  ret (indel_bam, indel_bai).

Definition run_base_recalibration
    (cores indel_bam indel_bai ref ref_dict fai dbsnp mem : pyval) (unsafe mock : bool)
  : M string :=
  work_dir <- getLocalTempDir H ;;
  let file_ids := [ref; fai; ref_dict; indel_bam; indel_bai; dbsnp] in
  let inputs := ["ref.fasta"; "ref.fasta.fai"; "ref.dict"; "sample.indel.bam";
                 "sample.indel.bai"; "dbsnp.vcf"] in
  read_inputs work_dir (zip file_ids inputs) ;;;
  let parameters := [VStr "-T"; VStr "BaseRecalibrator";
                     VStr "-nct"; VStr (str cores);
                     VStr "-R"; VStr "/data/ref.fasta";
                     VStr "-I"; VStr "/data/sample.indel.bam";
                     VStr "-knownSites"; VStr "/data/dbsnp.vcf";
                     VStr "-o"; VStr "/data/sample.recal.table"] in
  let parameters := if unsafe then parameters ++ unsafe_arguments else parameters in
  docker_call H
    {| tool := "quay.io/ucsc_cgl/gatk:3.5--dba6dae49156168a909c43330350c6161dc7ecc2";
       inputs := Some inputs; mock := Some mock;
       outputs := Some [("sample.recal.table", VNone)];
       work_dir := work_dir; parameters := parameters;
       env := Some [("JAVA_OPTS", "-Xmx" +:+ str mem)] |} ;;;
  writeGlobalFile H (os_path_join work_dir "sample.recal.table").

Definition run_print_reads
    (cores table indel_bam indel_bai ref ref_dict fai mem : pyval) (unsafe mock : bool)
  : M (string * string) :=
  work_dir <- getLocalTempDir H ;;
  let file_ids := [ref; fai; ref_dict; table; indel_bam; indel_bai] in
  let inputs := ["ref.fasta"; "ref.fasta.fai"; "ref.dict"; "sample.recal.table";
                 "sample.indel.bam"; "sample.indel.bai"] in
  read_inputs work_dir (zip file_ids inputs) ;;;
  let parameters := [VStr "-T"; VStr "PrintReads";
                     VStr "-nct"; VStr (str cores);
                     VStr "-R"; VStr "/data/ref.fasta";
                     VStr "--emit_original_quals";
                     VStr "-I"; VStr "/data/sample.indel.bam";
                     VStr "-BQSR"; VStr "/data/sample.recal.table";
                     VStr "-o"; VStr "/data/sample.bqsr.bam"] in
  let parameters := if unsafe then parameters ++ unsafe_arguments else parameters in
  docker_call H
    {| tool := "quay.io/ucsc_cgl/gatk:3.5--dba6dae49156168a909c43330350c6161dc7ecc2";
       inputs := Some inputs; mock := Some mock;
       outputs := Some [("sample.bqsr.bam", VNone); ("sample.bqsr.bai", VNone)];
       work_dir := work_dir; parameters := parameters;
       env := Some [("JAVA_OPTS", "-Xmx" +:+ str mem)] |} ;;;
  bam_id <- writeGlobalFile H (os_path_join work_dir "sample.bqsr.bam") ;;
  bai_id <- writeGlobalFile H (os_path_join work_dir "sample.bqsr.bai") ;;
  ret (bam_id, bai_id).

End Wrappers.

(** Any call of any wrapper of the module, for statements about all of them. *)
Inductive wrapper_call : Type :=
  | Call_run_cutadapt (r1_id r2_id fwd_3pr_adapter rev_3pr_adapter : pyval)
  | Call_run_samtools_faidx (ref_id : pyval) (mock : bool)
  | Call_run_samtools_index (bam_id : pyval)
  | Call_samtools_view (bam_id flag : pyval) (mock : bool)
  | Call_run_picard_create_sequence_dictionary (ref_id xmx : pyval) (mock : bool)
  | Call_picard_sort_sam (bam_id xmx : pyval) (mock : bool)
  | Call_picard_mark_duplicates (bam_id bai_id xmx : pyval) (mock : bool)
  | Call_run_realigner_target_creator
      (cores bam bai ref ref_dict fai phase mills mem : pyval) (unsafe mock : bool)
  | Call_run_indel_realignment
      (intervals bam bai ref ref_dict fai phase mills mem : pyval) (unsafe mock : bool)
  | Call_run_base_recalibration
      (cores indel_bam indel_bai ref ref_dict fai dbsnp mem : pyval) (unsafe mock : bool)
  | Call_run_print_reads
      (cores table indel_bam indel_bai ref ref_dict fai mem : pyval) (unsafe mock : bool).

(** Run a computation for its effects only. *)
Definition forget {A} (c : M A) : M unit := x <- c ;; ret ().

Definition call (H : host) (c : wrapper_call) : M unit :=
  match c with
  | Call_run_cutadapt r1 r2 fwd rev => forget (run_cutadapt H r1 r2 fwd rev)
  | Call_run_samtools_faidx ref_id mock => forget (run_samtools_faidx H ref_id mock)
  | Call_run_samtools_index bam_id => forget (run_samtools_index H bam_id)
  | Call_samtools_view bam_id flag mock => forget (samtools_view H bam_id flag mock)
  | Call_run_picard_create_sequence_dictionary ref_id xmx mock =>
      forget (run_picard_create_sequence_dictionary H ref_id xmx mock)
  | Call_picard_sort_sam bam_id xmx mock => forget (picard_sort_sam H bam_id xmx mock)
  | Call_picard_mark_duplicates bam_id bai_id xmx mock =>
      forget (picard_mark_duplicates H bam_id bai_id xmx mock)
  | Call_run_realigner_target_creator cores bam bai ref ref_dict fai phase mills mem unsafe mock =>
      forget (run_realigner_target_creator H cores bam bai ref ref_dict fai phase mills mem
                unsafe mock)
  | Call_run_indel_realignment intervals bam bai ref ref_dict fai phase mills mem unsafe mock =>
      forget (run_indel_realignment H intervals bam bai ref ref_dict fai phase mills mem
                unsafe mock)
  | Call_run_base_recalibration cores indel_bam indel_bai ref ref_dict fai dbsnp mem unsafe mock =>
      forget (run_base_recalibration H cores indel_bam indel_bai ref ref_dict fai dbsnp mem
                unsafe mock)
  | Call_run_print_reads cores table indel_bam indel_bai ref ref_dict fai mem unsafe mock =>
      forget (run_print_reads H cores table indel_bam indel_bai ref ref_dict fai mem
                unsafe mock)
  end.

(** The FileStoreIDs a call was given, as its docstring names them. *)
Definition input_ids (c : wrapper_call) : list pyval :=
  match c with
  | Call_run_cutadapt r1 r2 _ _ => [r1; r2]
  | Call_run_samtools_faidx ref_id _ => [ref_id]
  | Call_run_samtools_index bam_id => [bam_id]
  | Call_samtools_view bam_id _ _ => [bam_id]
  | Call_run_picard_create_sequence_dictionary ref_id _ _ => [ref_id]
  | Call_picard_sort_sam bam_id _ _ => [bam_id]
  | Call_picard_mark_duplicates bam_id bai_id _ _ => [bam_id; bai_id]
  | Call_run_realigner_target_creator _ bam bai ref ref_dict fai phase mills _ _ _ =>
      [bam; bai; ref; ref_dict; fai; phase; mills]
  | Call_run_indel_realignment intervals bam bai ref ref_dict fai phase mills _ _ _ =>
      [intervals; bam; bai; ref; ref_dict; fai; phase; mills]
  | Call_run_base_recalibration _ indel_bam indel_bai ref ref_dict fai dbsnp _ _ _ =>
      [indel_bam; indel_bai; ref; ref_dict; fai; dbsnp]
  | Call_run_print_reads _ table indel_bam indel_bai ref ref_dict fai _ _ _ =>
      [table; indel_bam; indel_bai; ref; ref_dict; fai]
  end.

(** ** The job graph *)

(** The functions of the module a job can wrap. *)
Inductive job_fn : Type :=
  | fn_run_cutadapt
  | fn_run_samtools_faidx
  | fn_run_samtools_index
  | fn_samtools_view
  | fn_run_picard_create_sequence_dictionary
  | fn_picard_sort_sam
  | fn_picard_mark_duplicates
  | fn_run_preprocessing
  | fn_run_gatk_preprocessing
  | fn_run_realigner_target_creator
  | fn_run_indel_realignment
  | fn_run_base_recalibration
  | fn_run_print_reads.

Global Instance job_fn_eq_dec : EqDecision job_fn.
Proof. solve_decision. Defined.

(** The parameters of each function after [job], in the order of its [def]. *)
Definition signature (f : job_fn) : list string :=
  match f with
  | fn_run_cutadapt => ["r1_id"; "r2_id"; "fwd_3pr_adapter"; "rev_3pr_adapter"]
  | fn_run_samtools_faidx => ["ref_id"; "mock"]
  | fn_run_samtools_index => ["bam_id"]
  | fn_samtools_view => ["bam_id"; "flag"; "mock"]
  | fn_run_picard_create_sequence_dictionary => ["ref_id"; "xmx"; "mock"]
  | fn_picard_sort_sam => ["bam_id"; "xmx"; "mock"]
  | fn_picard_mark_duplicates => ["bam_id"; "bai_id"; "xmx"; "mock"]
  | fn_run_preprocessing =>
      ["cores"; "bam"; "bai"; "ref"; "ref_dict"; "fai"; "phase"; "mills"; "dbsnp"; "mem";
       "unsafe"]
  | fn_run_gatk_preprocessing =>
      ["cores"; "bam"; "bai"; "ref"; "ref_dict"; "fai"; "phase"; "mills"; "dbsnp"; "mem";
       "unsafe"; "mock"]
  | fn_run_realigner_target_creator =>
      ["cores"; "bam"; "bai"; "ref"; "ref_dict"; "fai"; "phase"; "mills"; "mem"; "unsafe";
       "mock"]
  | fn_run_indel_realignment =>
      ["intervals"; "bam"; "bai"; "ref"; "ref_dict"; "fai"; "phase"; "mills"; "mem"; "unsafe";
       "mock"]
  | fn_run_base_recalibration =>
      ["cores"; "indel_bam"; "indel_bai"; "ref"; "ref_dict"; "fai"; "dbsnp"; "mem"; "unsafe";
       "mock"]
  | fn_run_print_reads =>
      ["cores"; "table"; "indel_bam"; "indel_bai"; "ref"; "ref_dict"; "fai"; "mem"; "unsafe";
       "mock"]
  end.

(** An argument handed to [wrapJobFn]: a value the caller holds, or the
    promise [j.rv(i)] (or [j.rv()], the empty path) of a return value of job [j]. *)
Inductive job_arg : Type :=
  | Const (v : pyval)
  | Promise (j : nat) (path : list nat).

Global Instance job_arg_eq_dec : EqDecision job_arg.
Proof. solve_decision. Defined.

(** [job.wrapJobFn(fn, *args, **kwargs)] *)
Record wrapped_job : Type := WrappedJob {
  fn : job_fn;
  args : list job_arg;
  kwargs : list (string * job_arg)
}.

(** The jobs made so far, a job being named by its position, and the
    (parent, child) pairs declared so far, oldest first. *)
Record workflow : Type := Workflow {
  jobs : list wrapped_job;
  children : list (nat * nat)
}.

Definition G (A : Type) : Type := workflow → A * workflow.

Definition wrapJobFn (f : job_fn) (args : list job_arg) (kwargs : list (string * job_arg))
  : G nat := λ w,
  (length (jobs w), Workflow (jobs w ++ [WrappedJob f args kwargs]) (children w)).

Definition addChild (parent child : nat) : G unit := λ w,
  ((), Workflow (jobs w) (children w ++ [(parent, child)])).

Definition rv (j : nat) (path : list nat) : job_arg := Promise j path.

Definition gret {A} (a : A) : G A := λ w, (a, w).

Definition gbind {A B} (c : G A) (k : A → G B) : G B := λ w,
  match c w with
  | (a, w1) => k a w1
  end.

Notation "x <~ c ;; k" := (gbind c (λ x, k))
  (at level 100, c at next level, right associativity, only parsing).
Notation "c ;;~ k" := (gbind c (λ _, k))
  (at level 100, right associativity, only parsing).

(** The value a job binds to parameter [name] when it runs: the positional
    argument at the parameter's place, else the keyword argument. [None]
    leaves the parameter to its default. *)
Definition argument (j : wrapped_job) (name : string) : option job_arg :=
  match list_find (λ p, bool_decide (p = name)) (signature (fn j)) with
  | Some (i, _) =>
      match args j !! i with
      | Some a => Some a
      | None =>
          match list_find (λ kv : string * job_arg, bool_decide (kv.1 = name)) (kwargs j) with
          | Some (_, (_, a)) => Some a
          | None => None
          end
      end
  | None => None
  end.

Definition run_preprocessing (job : nat)
    (cores bam bai ref ref_dict fai phase mills dbsnp mem : pyval) (unsafe : bool)
  : G (job_arg * job_arg) :=
  rtc <~ wrapJobFn fn_run_realigner_target_creator
           [Const cores; Const bam; Const bai; Const ref; Const ref_dict; Const fai;
            Const phase; Const mills; Const mem; Const (VBool unsafe)] [] ;;
  ir <~ wrapJobFn fn_run_indel_realignment
          [rv rtc []; Const bam; Const bai; Const ref; Const ref_dict; Const fai;
           Const phase; Const mills; Const mem; Const (VBool unsafe)] [] ;;
  br <~ wrapJobFn fn_run_base_recalibration
          [Const cores; rv ir [0%nat]; rv ir [1%nat]; Const ref; Const ref_dict; Const fai;
           Const dbsnp; Const mem; Const (VBool unsafe)] [] ;;
  pr <~ wrapJobFn fn_run_print_reads
          [Const cores; rv br []; rv ir [0%nat]; rv ir [1%nat]; Const ref; Const ref_dict;
           Const fai; Const mem; Const (VBool unsafe)] [] ;;
  addChild job rtc ;;~
  addChild rtc ir ;;~
  addChild ir br ;;~
  addChild br pr ;;~
  gret (rv pr [0%nat], rv pr [1%nat]).

Definition run_gatk_preprocessing (job : nat)
    (cores bam bai ref ref_dict fai phase mills dbsnp mem : pyval) (unsafe mock : bool)
  : G (job_arg * job_arg) :=
  rm_secondary <~ wrapJobFn fn_samtools_view [Const bam]
                    [("flag", Const (VStr "0x800")); ("mock", Const (VBool mock))] ;;
  picard_sort <~ wrapJobFn fn_picard_sort_sam [rv rm_secondary []]
                   [("xmx", Const mem); ("mock", Const (VBool mock))] ;;
  mdups <~ wrapJobFn fn_picard_mark_duplicates [rv picard_sort [0%nat]; rv picard_sort [1%nat]]
             [("xmx", Const mem); ("mock", Const (VBool mock))] ;;
  rtc <~ wrapJobFn fn_run_realigner_target_creator
           [Const cores; rv mdups [0%nat]; rv mdups [1%nat]; Const ref;
            Const ref_dict; Const fai; Const phase; Const mills; Const mem]
           [("unsafe", Const (VBool unsafe)); ("mock", Const (VBool mock))] ;;
  ir <~ wrapJobFn fn_run_indel_realignment
          [rv rtc []; Const bam; Const bai; Const ref; Const ref_dict; Const fai; Const phase;
           Const mills; Const mem]
          [("unsafe", Const (VBool unsafe)); ("mock", Const (VBool mock))] ;;
  br <~ wrapJobFn fn_run_base_recalibration
          [Const cores; rv ir [0%nat]; rv ir [1%nat]; Const ref; Const ref_dict; Const fai;
           Const dbsnp; Const mem]
          [("unsafe", Const (VBool unsafe)); ("mock", Const (VBool mock))] ;;
  pr <~ wrapJobFn fn_run_print_reads
          [Const cores; rv br []; rv ir [0%nat]; rv ir [1%nat]; Const ref; Const ref_dict;
           Const fai; Const mem]
          [("unsafe", Const (VBool unsafe)); ("mock", Const (VBool mock))] ;;
  addChild job rm_secondary ;;~
  addChild rm_secondary picard_sort ;;~
  addChild picard_sort mdups ;;~
  addChild mdups rtc ;;~
  addChild rtc ir ;;~
  addChild ir br ;;~
  addChild br pr ;;~
  gret (rv pr [0%nat], rv pr [1%nat]).

(** ** Reading a trace *)

(** The requests of the [docker_call]s of a trace, oldest first. *)
Definition docker_requests (t : list event) : list docker_request :=
  omap (λ e, match e with DockerCall req _ => Some req | _ => None end) t.

(** The (ID, local path) pairs of the [readGlobalFile]s of a trace. *)
Definition reads_of (t : list event) : list (pyval * string) :=
  omap (λ e, match e with ReadGlobalFile id path _ => Some (id, path) | _ => None end) t.

(** The local paths of the [writeGlobalFile]s of a trace. *)
Definition writes_of (t : list event) : list string :=
  omap (λ e, match e with WriteGlobalFile path _ => Some path | _ => None end) t.

(** The (local path, issued ID) pairs of the [writeGlobalFile]s of a trace
    that went through. *)
Definition written (t : list event) : list (string * string) :=
  omap (λ e, match e with WriteGlobalFile path (Some id) => Some (path, id) | _ => None end) t.

(** Some argument of a command line has [name] in it. *)
Definition names_file (name : string) (command : list pyval) : bool :=
  existsb (λ v, match v with VStr s => occurs_in name s | _ => false end) command.

Definition is_docker_call (e : event) : bool :=
  match e with DockerCall _ _ => true | _ => false end.

Definition is_write (e : event) : bool :=
  match e with WriteGlobalFile _ _ => true | _ => false end.

Definition is_delete (e : event) : bool :=
  match e with DeleteGlobalFile _ _ => true | _ => false end.

Definition is_returned {A} (o : outcome A) : bool :=
  match o with Returned _ => true | Raised _ => false end.

(** A host for the examples: four cores, every tool succeeds and leaves the
    files named in the table below in the scratch directory, and the store
    issues the first ID it does not hold. *)
Definition demo_products : list string :=
  ["R1_cutadapt.fastq"; "R2_cutadapt.fastq"; "sample.output.bam"; "sample.intervals"].

Definition demo_tool (req : docker_request) (files : gmap string string)
  : option (gmap string string) :=
  Some (foldr (λ name fs, <[os_path_join (work_dir req) name := "out"]> fs) files demo_products).

Definition demo_host : host :=
  {| cpu_count := 4;
     local_temp_dir := "/tmp/job";
     run_tool := demo_tool;
     new_file_id := λ store, fresh (dom store) |}.

Definition demo_machine : machine :=
  {| file_store :=
       list_to_map
         [("r1", "reads 1"); ("r2", "reads 2"); ("bam", "alignments"); ("bai", "index");
          ("ref", "genome"); ("fai", "genome index"); ("dict", "genome dictionary");
          ("phase", "phase variants"); ("mills", "mills variants")];
     local_files := ∅ |}.

(** The store of a host never issues an ID it already holds. *)
Definition issues_new_ids (H : host) : Prop :=
  ∀ store, store !! new_file_id H store = None.

(** A run calls [docker_call] exactly once, with [expected] as parameters,
    unless a [readGlobalFile] raised before it got there. *)
Definition passes_parameters {A} (r : outcome A * machine * list event)
    (expected : list pyval) : Prop :=
  match docker_requests r.2 with
  | [] => ∃ id, r.1.1 = Raised (NoSuchFileStoreID id)
  | [req] => parameters req = expected
  | _ => False
  end.

(** A trace is in order when no write comes before the tool was called,
    nothing but writes comes after it, and a tool that failed ends the
    trace; and a call that returned has called the tool. *)
Fixpoint well_ordered (returned : bool) (t : list event) : bool :=
  match t with
  | [] => negb returned
  | DockerCall _ ok :: rest =>
      forallb is_write rest && (ok || match rest with [] => negb returned | _ => false end)
  | WriteGlobalFile _ _ :: _ => false
  | _ :: rest => well_ordered returned rest
  end.

(** What a call may do to the entries of the store: read an ID it was
    given, or write a file under an ID the store did not hold
    before the call.  Scratch directories, log messages, the CPU count and
    the tool touch no entry. *)
Definition leaves_entries (store : gmap string string) (ids : list pyval) (e : event)
  : Prop :=
  match e with
  | ReadGlobalFile id _ _ => id ∈ ids
  | WriteGlobalFile _ (Some id) => store !! id = None
  | DeleteGlobalFile _ _ => False
  | _ => True
  end.

(** The example host with eight cores instead of four. *)
Definition demo_host_8 : host :=
  {| cpu_count := 8;
     local_temp_dir := local_temp_dir demo_host;
     run_tool := run_tool demo_host;
     new_file_id := new_file_id demo_host |}.

(** ** Further readings of a call and of a job *)

(** A call, run for the IDs it returns, in the order of its return value. *)
Definition call_ids (H : host) (c : wrapper_call) : M (list string) :=
  match c with
  | Call_run_cutadapt r1 r2 fwd rev =>
      r <- run_cutadapt H r1 r2 fwd rev ;;
      ret (r.1 :: match r.2 with Some id => [id] | None => [] end)
  | Call_run_samtools_faidx ref_id mock =>
      id <- run_samtools_faidx H ref_id mock ;; ret [id]
  | Call_run_samtools_index bam_id =>
      id <- run_samtools_index H bam_id ;; ret [id]
  | Call_samtools_view bam_id flag mock =>
      id <- samtools_view H bam_id flag mock ;; ret [id]
  | Call_run_picard_create_sequence_dictionary ref_id xmx mock =>
      id <- run_picard_create_sequence_dictionary H ref_id xmx mock ;; ret [id]
  | Call_picard_sort_sam bam_id xmx mock =>
      r <- picard_sort_sam H bam_id xmx mock ;; ret [r.1; r.2]
  | Call_picard_mark_duplicates bam_id bai_id xmx mock =>
      r <- picard_mark_duplicates H bam_id bai_id xmx mock ;; ret [r.1; r.2]
  | Call_run_realigner_target_creator cores bam bai ref ref_dict fai phase mills mem unsafe mock =>
      id <- run_realigner_target_creator H cores bam bai ref ref_dict fai phase mills mem
              unsafe mock ;;
      ret [id]
  | Call_run_indel_realignment intervals bam bai ref ref_dict fai phase mills mem unsafe mock =>
      r <- run_indel_realignment H intervals bam bai ref ref_dict fai phase mills mem
             unsafe mock ;;
      ret [r.1; r.2]
  | Call_run_base_recalibration cores indel_bam indel_bai ref ref_dict fai dbsnp mem unsafe mock =>
      id <- run_base_recalibration H cores indel_bam indel_bai ref ref_dict fai dbsnp mem
              unsafe mock ;;
      ret [id]
  | Call_run_print_reads cores table indel_bam indel_bai ref ref_dict fai mem unsafe mock =>
      r <- run_print_reads H cores table indel_bam indel_bai ref ref_dict fai mem
             unsafe mock ;;
      ret [r.1; r.2]
  end.

(** The memory argument of a call ([xmx] or [mem]), if its wrapper has one. *)
Definition heap_argument (c : wrapper_call) : option pyval :=
  match c with
  | Call_run_cutadapt _ _ _ _ => None
  | Call_run_samtools_faidx _ _ => None
  | Call_run_samtools_index _ => None
  | Call_samtools_view _ _ _ => None
  | Call_run_picard_create_sequence_dictionary _ xmx _ => Some xmx
  | Call_picard_sort_sam _ xmx _ => Some xmx
  | Call_picard_mark_duplicates _ _ xmx _ => Some xmx
  | Call_run_realigner_target_creator _ _ _ _ _ _ _ _ mem _ _ => Some mem
  | Call_run_indel_realignment _ _ _ _ _ _ _ _ mem _ _ => Some mem
  | Call_run_base_recalibration _ _ _ _ _ _ _ mem _ _ => Some mem
  | Call_run_print_reads _ _ _ _ _ _ _ mem _ _ => Some mem
  end.

(** The [mock] argument of a call, if its wrapper has one. *)
Definition mock_argument (c : wrapper_call) : option bool :=
  match c with
  | Call_run_cutadapt _ _ _ _ => None
  | Call_run_samtools_faidx _ mock => Some mock
  | Call_run_samtools_index _ => None
  | Call_samtools_view _ _ mock => Some mock
  | Call_run_picard_create_sequence_dictionary _ _ mock => Some mock
  | Call_picard_sort_sam _ _ mock => Some mock
  | Call_picard_mark_duplicates _ _ _ mock => Some mock
  | Call_run_realigner_target_creator _ _ _ _ _ _ _ _ _ _ mock => Some mock
  | Call_run_indel_realignment _ _ _ _ _ _ _ _ _ _ mock => Some mock
  | Call_run_base_recalibration _ _ _ _ _ _ _ _ _ mock => Some mock
  | Call_run_print_reads _ _ _ _ _ _ _ _ _ mock => Some mock
  end.

(** The jobs whose promises a job was given, positional arguments first. *)
Definition promised_jobs (j : wrapped_job) : list nat :=
  omap (λ a, match a with Promise k _ => Some k | Const _ => None end)
    (args j ++ (snd <$> kwargs j)).

(** A read that went through, as an event. *)
Definition read_ok (dir : string) (p : pyval * string) : event :=
  ReadGlobalFile p.1 (os_path_join dir p.2) true.

(** The ID [p.1] is one the store holds. *)
Definition stored (store : gmap string string) (p : pyval * string) : Prop :=
  is_Some (fetch store p.1).

(** The example host with a sorter that leaves the sorted BAM but not its
    index. *)
Definition demo_host_no_index : host :=
  {| cpu_count := 4;
     local_temp_dir := "/tmp/job";
     run_tool := λ req files,
       Some (<[os_path_join (work_dir req) "sample.sorted.bam" := "sorted"]> files);
     new_file_id := λ store, fresh (dom store) |}.

(** The example host with a sorter that leaves both the sorted BAM and its
    index. *)
Definition demo_host_sorter : host :=
  {| cpu_count := 4;
     local_temp_dir := "/tmp/job";
     run_tool := λ req files,
       Some (<[os_path_join (work_dir req) "sample.sorted.bam" := "sorted"]>
               (<[os_path_join (work_dir req) "sample.sorted.bai" := "sorted index"]> files));
     new_file_id := λ store, fresh (dom store) |}.

(** A run gets to the tool exactly when the store holds every one of [ids]:
    then it calls [docker_call] once, with a request of which [told] holds;
    otherwise it calls no tool and writes nothing, and it ends in the
    [readGlobalFile] that raised, for one of [ids] that the store lacks. *)
Definition reaches_tool {A} (r : outcome A * machine * list event)
    (store : gmap string string) (ids : list pyval) (told : docker_request → Prop) : Prop :=
  (Forall (λ id, is_Some (fetch store id)) ids →
   ∃ req, docker_requests r.2 = [req] ∧ told req) ∧
  (¬ Forall (λ id, is_Some (fetch store id)) ids →
   docker_requests r.2 = [] ∧ writes_of r.2 = [] ∧
   ∃ id path, id ∈ ids ∧ fetch store id = None ∧
              r.1.1 = Raised (NoSuchFileStoreID id) ∧
              last r.2 = Some (ReadGlobalFile id path false)).

(** The path in the scratch directory of a file the tool is given under
    /data, where [docker_call] mounts the directory. *)
Definition scratch_path (dir path : string) : string :=
  if String.prefix "/data/" path
  then os_path_join dir (String.substring 6 (String.length path - 6) path)
  else path.

(** The value that follows the first '-o' of a command line. *)
Fixpoint output_option (command : list pyval) : option string :=
  match command with
  | VStr "-o" :: VStr path :: _ => Some path
  | _ :: rest => output_option rest
  | [] => None
  end.

(** The example host with a trimmer that does what its command line says:
    it writes the trimmed reads to the file named after '-o'. *)
Definition demo_host_trimmer : host :=
  {| cpu_count := 4;
     local_temp_dir := "/tmp/job";
     run_tool := λ req files,
       match output_option (parameters req) with
       | Some path => Some (<[scratch_path (work_dir req) path := "trimmed"]> files)
       | None => None
       end;
     new_file_id := λ store, fresh (dom store) |}.

(** The example host with a trimmer that leaves the first trimmed file but
    not the second. *)
Definition demo_host_first_read_only : host :=
  {| cpu_count := 4;
     local_temp_dir := "/tmp/job";
     run_tool := λ req files,
       Some (<[os_path_join (work_dir req) "R1_cutadapt.fastq" := "trimmed"]> files);
     new_file_id := λ store, fresh (dom store) |}.

(** The file store as a later reader finds it when the reads of the trace
    [t] did not copy: Toil's [readGlobalFile] is by default not mutable and
    may hand out the stored file itself, linked into the scratch directory,
    so that a tool that writes such a file in place writes the entry.  Each
    ID that was read then holds what its scratch file holds in the end. *)
Definition seen_through_links (t : list event) (after : machine) : gmap string string :=
  foldr (λ e store,
           match e with
           | ReadGlobalFile (VStr id) path true =>
               match local_files after !! path with
               | Some data => <[id := data]> store
               | None => store
               end
           | _ => store
           end)
    (file_store after) t.

(** ** Lemmas *)

Lemma demo_host_issues_new_ids : issues_new_ids demo_host.
Proof.
  intros store. simpl. apply not_elem_of_dom. apply is_fresh.
Qed.

(** Symbolic execution of a wrapper: unfold the calls, then split on what
    the collaborator at the head of the run answers, reduce, and go on with
    the continuation. *)
Ltac exec_open :=
  cbn [read_inputs zip zip_with];
  unfold require, forget;
  unfold bind, ret, raise, getLocalTempDir, logToMaster, multiprocessing_cpu_count,
    readGlobalFile, writeGlobalFile, docker_call.

Ltac exec_reduce := cbv beta iota zeta delta [file_store local_files fst snd app andb].

Ltac exec_split :=
  match goal with
  | |- context [match fetch ?s ?id with _ => _ end] => destruct (fetch s id) eqn:?
  | |- context [match run_tool ?H ?r ?f with _ => _ end] => destruct (run_tool H r f) eqn:?
  | |- context [match @lookup _ _ (gmap string string) _ ?p ?f with _ => _ end] =>
      destruct (f !! p) eqn:?
  | |- context [if truthy ?v then _ else _] => destruct (truthy v) eqn:?
  | |- context [if ?b then _ else _] => is_var b; destruct b
  end.

Ltac exec := exec_open; exec_reduce; repeat (exec_split; exec_reduce).

(** Name the result of the run [c], execute it, and go on, path by path,
    with what it came to. *)
Ltac exec_run c :=
  let Hrun := fresh "Hrun" in
  destruct c as [[? ?] ?] eqn:Hrun; revert Hrun; exec; intros [= ]; subst.

Ltac exec_goal :=
  match goal with
  | |- context [bind ?c ?k ?m] => exec_run (bind c k m)
  end.

(** Read off a trace that execution has made explicit. *)
Ltac read_trace :=
  cbv beta iota zeta
    delta [docker_requests reads_of writes_of written omap list_omap fmap list_fmap fst snd].

(** Settle [reaches_tool] on one path of an executed run; [told] settles
    what the request is shown to satisfy. *)
Ltac settle_reaches told :=
  split;
  [ intros Hall;
    first
      [ by exfalso; repeat (apply Forall_cons in Hall as [[? ?] Hall]); congruence
      | eexists; split; [reflexivity | told] ]
  | intros Hnot;
    first
      [ by destruct Hnot; repeat (apply Forall_cons; split; [eauto |]); apply Forall_nil
      | split; [done |]; split; [done |];
        eexists _, _; (split; [| split; [eassumption | split; reflexivity]]);
        repeat first [exact (list_elem_of_here _ _) | apply list_elem_of_further] ] ].

(** ** The pipeline wiring *)

(** C1. [run_gatk_preprocessing] makes seven jobs, in the documented order
    (samtools_view with flag '0x800', picard_sort_sam, picard_mark_duplicates,
    run_realigner_target_creator, run_indel_realignment,
    run_base_recalibration, run_print_reads), adds the first as a child of
    the calling job and each later one as the child of the job before it,
    declares no other parent/child pair, and returns the promises of the
    first and second return value of the print-reads job. *)
Theorem run_gatk_preprocessing_linear_chain
    (job : nat) (cores bam bai ref ref_dict fai phase mills dbsnp mem : pyval)
    (unsafe mock : bool) (w : workflow) :
  let r := run_gatk_preprocessing job cores bam bai ref ref_dict fai phase mills dbsnp mem
             unsafe mock w in
  let n := length (jobs w) in
  take n (jobs r.2) = jobs w ∧
  fn <$> drop n (jobs r.2) =
    [fn_samtools_view; fn_picard_sort_sam; fn_picard_mark_duplicates;
     fn_run_realigner_target_creator; fn_run_indel_realignment;
     fn_run_base_recalibration; fn_run_print_reads] ∧
  (λ j, argument j "flag") <$> jobs r.2 !! n = Some (Some (Const (VStr "0x800"))) ∧
  children r.2 =
    children w ++
    [(job, n); (n, n + 1); (n + 1, n + 2); (n + 2, n + 3); (n + 3, n + 4); (n + 4, n + 5);
     (n + 5, n + 6)]%nat ∧
  r.1 = (Promise (n + 6) [0%nat], Promise (n + 6) [1%nat]).
Proof.
  destruct w as [js cs]. cbn -[take drop argument].
  unfold gbind, wrapJobFn, addChild, gret. cbn -[take drop argument].
  rewrite !length_app. cbn [length]. rewrite <- !app_assoc. cbn [app].
  repeat split.
  - by rewrite take_app_length.
  - by rewrite drop_app_length.
  - rewrite lookup_app_r by lia. by rewrite Nat.sub_diag.
  - by rewrite !Nat.add_1_r, !Nat.add_succ_r, !Nat.add_0_r.
  - by rewrite !Nat.add_1_r, !Nat.add_succ_r, Nat.add_0_r.
Qed.

(** C2. In [run_gatk_preprocessing] the target-creator job is given the two
    promised outputs of the mark-duplicates job as [bam] and [bai], and the
    indel-realignment job is given the intervals promised by the
    target-creator job, but as [bam] and [bai] it is given the calling
    job's own [bam] and [bai], not the outputs of the mark-duplicates job.
    In [run_preprocessing] the indel-realignment job is given the same
    [bam] and [bai] as the target-creator job. *)
Theorem run_gatk_preprocessing_indel_realignment_inputs
    (job : nat) (cores bam bai ref ref_dict fai phase mills dbsnp mem : pyval)
    (unsafe mock : bool) (w : workflow) :
  let n := length (jobs w) in
  let inputs_of (j : wrapped_job) :=
    (fn j, argument j "intervals", argument j "bam", argument j "bai") in
  let gatk := (run_gatk_preprocessing job cores bam bai ref ref_dict fai phase mills dbsnp mem
                 unsafe mock w).2 in
  let plain := (run_preprocessing job cores bam bai ref ref_dict fai phase mills dbsnp mem
                  unsafe w).2 in
  fn <$> jobs gatk !! (n + 2)%nat = Some fn_picard_mark_duplicates ∧
  inputs_of <$> jobs gatk !! (n + 3)%nat =
    Some (fn_run_realigner_target_creator, None,
          Some (Promise (n + 2) [0%nat]), Some (Promise (n + 2) [1%nat])) ∧
  inputs_of <$> jobs gatk !! (n + 4)%nat =
    Some (fn_run_indel_realignment, Some (Promise (n + 3) []),
          Some (Const bam), Some (Const bai)) ∧
  Const bam ≠ Promise (n + 2) [0%nat] ∧
  Const bai ≠ Promise (n + 2) [1%nat] ∧
  inputs_of <$> jobs plain !! n =
    Some (fn_run_realigner_target_creator, None, Some (Const bam), Some (Const bai)) ∧
  inputs_of <$> jobs plain !! (n + 1)%nat =
    Some (fn_run_indel_realignment, Some (Promise n []), Some (Const bam), Some (Const bai)).
Proof.
  destruct w as [js cs]. cbn -[argument].
  unfold gbind, wrapJobFn, addChild, gret. cbn -[argument].
  rewrite !length_app. cbn [length]. rewrite <- !app_assoc. cbn [app].
  rewrite !lookup_app_r by lia.
  replace (length js + 2 - length js)%nat with 2%nat by lia.
  replace (length js + 3 - length js)%nat with 3%nat by lia.
  replace (length js + 4 - length js)%nat with 4%nat by lia.
  replace (length js + 1 - length js)%nat with 1%nat by lia.
  rewrite Nat.sub_diag.
  rewrite !Nat.add_1_r, !Nat.add_succ_r, Nat.add_0_r.
  repeat split; done.
Qed.

(** ** Adapter trimming: the precondition *)

(** C3. A call of [run_cutadapt] with a truthy [r2_id] and a falsy
    [rev_3pr_adapter] raises the configuration error.  By then it has asked
    the file store for a scratch directory and nothing else: it has read no
    file, called no tool and written no file, so that the machine is as the
    call found it and no ID comes back. *)
Theorem run_cutadapt_requires_reverse_adapter
    (H : host) (r1_id r2_id fwd_3pr_adapter rev_3pr_adapter : pyval) (m : machine) :
  truthy r2_id = true →
  truthy rev_3pr_adapter = false →
  let r := run_cutadapt H r1_id r2_id fwd_3pr_adapter rev_3pr_adapter m in
  r = (Raised (UserError "Paired end data requires a reverse 3' adapter sequence."), m,
       [GetLocalTempDir (local_temp_dir H)]) ∧
  reads_of r.2 = [] ∧ docker_requests r.2 = [] ∧ writes_of r.2 = [] ∧
  is_returned r.1.1 = false.
Proof.
  intros Hr2 Hrev. destruct m as [store files].
  unfold run_cutadapt. rewrite Hr2. unfold require. rewrite Hrev.
  exec. done.
Qed.

Lemma run_cutadapt_requires_reverse_adapter_witness :
  let r := run_cutadapt demo_host (VStr "r1") (VStr "r2") (VStr "AGATCGGAAGAGC") VNone
             demo_machine in
  r = (Raised (UserError "Paired end data requires a reverse 3' adapter sequence."),
       demo_machine, [GetLocalTempDir "/tmp/job"]) ∧
  reads_of r.2 = [] ∧ docker_requests r.2 = [] ∧ writes_of r.2 = [] ∧
  is_returned r.1.1 = false.
Proof.
  apply (run_cutadapt_requires_reverse_adapter demo_host (VStr "r1") (VStr "r2")
           (VStr "AGATCGGAAGAGC") VNone demo_machine); reflexivity.
Defined.

(** ** The GATK wrappers *)

(** C4. Each of the four GATK wrappers, once the store holds the IDs it
    stages, calls [docker_call] once and hands it its base parameter list,
    followed by the pair '-U', 'ALLOW_SEQ_DICT_INCOMPATIBILITY' when [unsafe]
    is true and by nothing when it is false, whatever the other arguments
    are.  It calls no tool only when a read of one of its IDs raised. *)
Theorem unsafe_appends_argument_pair
    (H : host) (m : machine) (unsafe mock : bool)
    (cores intervals table bam bai indel_bam indel_bai : pyval)
    (ref ref_dict fai phase mills dbsnp mem : pyval) :
  let extra := if unsafe then [VStr "-U"; VStr "ALLOW_SEQ_DICT_INCOMPATIBILITY"] else [] in
  reaches_tool
    (run_realigner_target_creator H cores bam bai ref ref_dict fai phase mills mem unsafe mock m)
    (file_store m) [ref; fai; ref_dict; bam; bai; phase; mills]
    (λ req, parameters req =
       [VStr "-T"; VStr "RealignerTargetCreator";
        VStr "-nt"; VStr (str cores);
        VStr "-R"; VStr "/data/ref.fasta";
        VStr "-I"; VStr "/data/sample.bam";
        VStr "-known"; VStr "/data/phase.vcf";
        VStr "-known"; VStr "/data/mills.vcf";
        VStr "--downsampling_type"; VStr "NONE";
        VStr "-o"; VStr "/data/sample.intervals"] ++ extra) ∧
  reaches_tool
    (run_indel_realignment H intervals bam bai ref ref_dict fai phase mills mem unsafe mock m)
    (file_store m) [ref; fai; ref_dict; intervals; bam; bai; phase; mills]
    (λ req, parameters req =
       [VStr "-T"; VStr "IndelRealigner";
        VStr "-R"; VStr "/data/ref.fasta";
        VStr "-I"; VStr "/data/sample.bam";
        VStr "-known"; VStr "/data/phase.vcf";
        VStr "-known"; VStr "/data/mills.vcf";
        VStr "-targetIntervals"; VStr "/data/sample.intervals";
        VStr "--downsampling_type"; VStr "NONE";
        VStr "-maxReads"; VStr "720000";
        VStr "-maxInMemory"; VStr "5400000";
        VStr "-o"; VStr "/data/sample.indel.bam"] ++ extra) ∧
  reaches_tool
    (run_base_recalibration H cores indel_bam indel_bai ref ref_dict fai dbsnp mem unsafe mock m)
    (file_store m) [ref; fai; ref_dict; indel_bam; indel_bai; dbsnp]
    (λ req, parameters req =
       [VStr "-T"; VStr "BaseRecalibrator";
        VStr "-nct"; VStr (str cores);
        VStr "-R"; VStr "/data/ref.fasta";
        VStr "-I"; VStr "/data/sample.indel.bam";
        VStr "-knownSites"; VStr "/data/dbsnp.vcf";
        VStr "-o"; VStr "/data/sample.recal.table"] ++ extra) ∧
  reaches_tool
    (run_print_reads H cores table indel_bam indel_bai ref ref_dict fai mem unsafe mock m)
    (file_store m) [ref; fai; ref_dict; table; indel_bam; indel_bai]
    (λ req, parameters req =
       [VStr "-T"; VStr "PrintReads";
        VStr "-nct"; VStr (str cores);
        VStr "-R"; VStr "/data/ref.fasta";
        VStr "--emit_original_quals";
        VStr "-I"; VStr "/data/sample.indel.bam";
        VStr "-BQSR"; VStr "/data/sample.recal.table";
        VStr "-o"; VStr "/data/sample.bqsr.bam"] ++ extra).
Proof.
  destruct m as [store files]. unfold reaches_tool.
  split; [| split; [| split]].
  - unfold run_realigner_target_creator. exec_goal; read_trace; cbn [file_store].
    all: settle_reaches ltac:(reflexivity).
  - unfold run_indel_realignment. exec_goal; read_trace; cbn [file_store].
    all: settle_reaches ltac:(reflexivity).
  - unfold run_base_recalibration. exec_goal; read_trace; cbn [file_store].
    all: settle_reaches ltac:(reflexivity).
  - unfold run_print_reads. exec_goal; read_trace; cbn [file_store].
    all: settle_reaches ltac:(reflexivity).
Qed.

Lemma unsafe_appends_argument_pair_witness :
  (∃ req,
     docker_requests
       (run_print_reads demo_host (VInt 4) (VStr "mills") (VStr "bam") (VStr "bai")
          (VStr "ref") (VStr "dict") (VStr "fai") (VStr "10G") true false demo_machine).2 =
       [req] ∧
     parameters req =
       [VStr "-T"; VStr "PrintReads"; VStr "-nct"; VStr "4"; VStr "-R"; VStr "/data/ref.fasta";
        VStr "--emit_original_quals"; VStr "-I"; VStr "/data/sample.indel.bam";
        VStr "-BQSR"; VStr "/data/sample.recal.table"; VStr "-o"; VStr "/data/sample.bqsr.bam";
        VStr "-U"; VStr "ALLOW_SEQ_DICT_INCOMPATIBILITY"]) ∧
  (∃ req,
     docker_requests
       (run_realigner_target_creator demo_host (VInt 4) (VStr "bam") (VStr "bai") (VStr "ref")
          (VStr "dict") (VStr "fai") (VStr "phase") (VStr "mills") (VStr "10G") false false
          demo_machine).2 = [req] ∧
     parameters req =
       [VStr "-T"; VStr "RealignerTargetCreator"; VStr "-nt"; VStr "4";
        VStr "-R"; VStr "/data/ref.fasta"; VStr "-I"; VStr "/data/sample.bam";
        VStr "-known"; VStr "/data/phase.vcf"; VStr "-known"; VStr "/data/mills.vcf";
        VStr "--downsampling_type"; VStr "NONE"; VStr "-o"; VStr "/data/sample.intervals"]).
Proof.
  split.
  - destruct (unsafe_appends_argument_pair demo_host demo_machine true false
                (VInt 4) (VStr "bam") (VStr "mills") (VStr "bam") (VStr "bai")
                (VStr "bam") (VStr "bai") (VStr "ref") (VStr "dict") (VStr "fai")
                (VStr "phase") (VStr "mills") (VStr "mills") (VStr "10G"))
      as (_ & _ & _ & [Hcalled _]).
    apply Hcalled. repeat (apply Forall_cons; split; [by vm_compute; eauto |]).
    by apply Forall_nil.
  - destruct (unsafe_appends_argument_pair demo_host demo_machine false false
                (VInt 4) (VStr "bam") (VStr "mills") (VStr "bam") (VStr "bai")
                (VStr "bam") (VStr "bai") (VStr "ref") (VStr "dict") (VStr "fai")
                (VStr "phase") (VStr "mills") (VStr "mills") (VStr "10G"))
      as ([Hcalled _] & _).
    apply Hcalled. repeat (apply Forall_cons; split; [by vm_compute; eauto |]).
    by apply Forall_nil.
Defined.

(** C5. [run_realigner_target_creator] reads [ref], [fai], [ref_dict],
    [bam], [bai], [phase] and [mills], in this order, to ref.fasta,
    ref.fasta.fai, ref.dict, sample.bam, sample.bam.bai, phase.vcf and
    mills.vcf in the scratch directory, and reads nothing else.  When the
    store holds the seven IDs it reads them all and calls the tool once,
    naming these seven files as inputs and sample.intervals as the one
    output; when it lacks one, the read of that ID raises and no tool is
    called.  When the tool has run and left sample.intervals, the call
    writes that one file and returns the ID it was issued, under which the
    store then holds the file.  It returns an ID exactly when the trace is:
    the seven reads, the tool, and one write of sample.intervals that was
    issued this ID. *)
Theorem run_realigner_target_creator_files
    (H : host) (cores bam bai ref ref_dict fai phase mills mem : pyval) (unsafe mock : bool)
    (m : machine) :
  let r := run_realigner_target_creator H cores bam bai ref ref_dict fai phase mills mem
             unsafe mock m in
  let dir := local_temp_dir H in
  let staged :=
    [(ref, os_path_join dir "ref.fasta"); (fai, os_path_join dir "ref.fasta.fai");
     (ref_dict, os_path_join dir "ref.dict"); (bam, os_path_join dir "sample.bam");
     (bai, os_path_join dir "sample.bam.bai"); (phase, os_path_join dir "phase.vcf");
     (mills, os_path_join dir "mills.vcf")] in
  let output := os_path_join dir "sample.intervals" in
  reads_of r.2 `prefix_of` staged ∧
  reaches_tool r (file_store m) [ref; fai; ref_dict; bam; bai; phase; mills]
    (λ req,
       reads_of r.2 = staged ∧
       work_dir req = dir ∧
       inputs req = Some ["ref.fasta"; "ref.fasta.fai"; "ref.dict"; "sample.bam";
                          "sample.bam.bai"; "phase.vcf"; "mills.vcf"] ∧
       outputs req = Some [("sample.intervals", VNone)]) ∧
  (∀ req data,
     DockerCall req true ∈ r.2 →
     local_files r.1.2 !! output = Some data →
     r.1.1 = Returned (new_file_id H (file_store m)) ∧
     writes_of r.2 = [output] ∧
     file_store r.1.2 !! new_file_id H (file_store m) = Some data) ∧
  ∀ id, r.1.1 = Returned id ↔
    ∃ req, r.2 =
      GetLocalTempDir dir ::
      ((λ s, ReadGlobalFile s.1 s.2 true) <$> staged) ++
      [DockerCall req true; WriteGlobalFile output (Some id)].
Proof.
  destruct m as [store files].
  unfold run_realigner_target_creator, reaches_tool. exec_goal; read_trace;
    cbn [file_store local_files].
  all: split; [by repeat (apply prefix_cons || apply prefix_nil) |].
  all: split; [settle_reaches ltac:(done) |].
  all: split;
    [ intros req0 data0 Hok Hdata;
      repeat (apply elem_of_cons in Hok as [[=] | Hok]); try (by apply elem_of_nil in Hok);
      subst; first [congruence | by rewrite lookup_insert_eq; split; [| split]; congruence]
    |].
  all: intros id0; split; [intros [= <-]; eauto | intros [req0 [= ]]; by subst].
Qed.

Lemma run_realigner_target_creator_files_witness :
  let r := run_realigner_target_creator demo_host (VInt 4) (VStr "bam") (VStr "bai")
             (VStr "ref") (VStr "dict") (VStr "fai") (VStr "phase") (VStr "mills")
             (VStr "10G") false false demo_machine in
  (∃ req,
     docker_requests r.2 = [req] ∧
     reads_of r.2 =
       [(VStr "ref", "/tmp/job/ref.fasta"); (VStr "fai", "/tmp/job/ref.fasta.fai");
        (VStr "dict", "/tmp/job/ref.dict"); (VStr "bam", "/tmp/job/sample.bam");
        (VStr "bai", "/tmp/job/sample.bam.bai"); (VStr "phase", "/tmp/job/phase.vcf");
        (VStr "mills", "/tmp/job/mills.vcf")] ∧
     work_dir req = "/tmp/job" ∧
     inputs req = Some ["ref.fasta"; "ref.fasta.fai"; "ref.dict"; "sample.bam";
                        "sample.bam.bai"; "phase.vcf"; "mills.vcf"] ∧
     outputs req = Some [("sample.intervals", VNone)]) ∧
  r.1.1 = Returned "0" ∧
  writes_of r.2 = ["/tmp/job/sample.intervals"] ∧
  file_store r.1.2 !! "0" = Some "out".
Proof.
  cbv zeta.
  destruct (run_realigner_target_creator_files demo_host (VInt 4) (VStr "bam") (VStr "bai")
              (VStr "ref") (VStr "dict") (VStr "fai") (VStr "phase") (VStr "mills")
              (VStr "10G") false false demo_machine) as (_ & [Hcalled _] & Hreturns & _).
  split.
  - apply Hcalled. repeat (apply Forall_cons; split; [by vm_compute; eauto |]).
    by apply Forall_nil.
  - destruct (Hcalled ltac:(repeat (apply Forall_cons; split; [by vm_compute; eauto |]);
                            by apply Forall_nil)) as (req & Hreq & _).
    apply (Hreturns req "out").
    + vm_compute in Hreq. injection Hreq as <-. vm_compute.
      do 8 apply list_elem_of_further. apply list_elem_of_here.
    + vm_compute. reflexivity.
Defined.

(** On the example host the call does return. *)
Example run_realigner_target_creator_returns :
  (run_realigner_target_creator demo_host (VInt 4) (VStr "bam") (VStr "bai") (VStr "ref")
     (VStr "dict") (VStr "fai") (VStr "phase") (VStr "mills") (VStr "10G") false false
     demo_machine).1.1 = Returned "0".
Proof. vm_compute. reflexivity. Qed.

(** ** samtools view *)

(** C9. [samtools_view] hands the tool
    ['view', '-b', '-o', '/data/sample.output.bam', '-F', str(flag), '-@',
    str(n), '/data/sample.bam'] with [n] the CPU count of the host it runs
    on.  So two runs with the same arguments, on the same machine state, on
    hosts whose CPU counts differ hand the tool different commands.  With
    the default flag the command has '-F', '0'. *)
Theorem samtools_view_command
    (H1 H2 : host) (bam_id flag : pyval) (mock : bool) (m : machine) :
  passes_parameters (samtools_view H1 bam_id flag mock m)
    [VStr "view"; VStr "-b"; VStr "-o"; VStr "/data/sample.output.bam";
     VStr "-F"; VStr (str flag); VStr "-@"; VStr (str (VInt (cpu_count H1)));
     VStr "/data/sample.bam"] ∧
  (cpu_count H1 ≠ cpu_count H2 →
   ∀ req1 req2,
     req1 ∈ docker_requests (samtools_view H1 bam_id flag mock m).2 →
     req2 ∈ docker_requests (samtools_view H2 bam_id flag mock m).2 →
     parameters req1 ≠ parameters req2) ∧
  passes_parameters (samtools_view H1 bam_id samtools_view_default_flag mock m)
    [VStr "view"; VStr "-b"; VStr "-o"; VStr "/data/sample.output.bam";
     VStr "-F"; VStr "0"; VStr "-@"; VStr (str (VInt (cpu_count H1)));
     VStr "/data/sample.bam"].
Proof.
  destruct m as [store files]. unfold passes_parameters, samtools_view.
  split; [| split].
  - exec_goal; read_trace; eauto.
  - intros Hcpu req1 req2.
    exec; read_trace.
    all: try (by intros ?%elem_of_nil); try (by intros _ ?%elem_of_nil).
    all: intros ->%list_elem_of_singleton ->%list_elem_of_singleton [= Heq].
    all: by apply (inj pretty) in Heq.
  - exec_goal; read_trace; eauto.
Qed.

Lemma samtools_view_command_witness :
  parameters <$> docker_requests
    (samtools_view demo_host (VStr "bam") (VStr "0x800") false demo_machine).2 =
    [[VStr "view"; VStr "-b"; VStr "-o"; VStr "/data/sample.output.bam";
      VStr "-F"; VStr "0x800"; VStr "-@"; VStr "4"; VStr "/data/sample.bam"]] ∧
  parameters <$> docker_requests
    (samtools_view demo_host_8 (VStr "bam") (VStr "0x800") false demo_machine).2 =
    [[VStr "view"; VStr "-b"; VStr "-o"; VStr "/data/sample.output.bam";
      VStr "-F"; VStr "0x800"; VStr "-@"; VStr "8"; VStr "/data/sample.bam"]] ∧
  (parameters <$> docker_requests
     (samtools_view demo_host (VStr "bam") (VStr "0x800") false demo_machine).2) !! 0%nat ≠
  (parameters <$> docker_requests
     (samtools_view demo_host_8 (VStr "bam") (VStr "0x800") false demo_machine).2) !! 0%nat.
Proof.
  split; [vm_compute; reflexivity |]. split; [vm_compute; reflexivity |].
  destruct (samtools_view_command demo_host demo_host_8 (VStr "bam") (VStr "0x800") false
              demo_machine) as (_ & Hdiffer & _).
  intros Heq.
  eapply (Hdiffer ltac:(vm_compute; discriminate)).
  - vm_compute. left.
  - vm_compute. left.
  - vm_compute in Heq. by injection Heq.
Defined.

(** ** Adapter trimming: what is run and what is stored *)

Lemma names_file_cons (name : string) (v : pyval) (command : list pyval) :
  names_file name (v :: command) = names_file name [v] || names_file name command.
Proof. unfold names_file. cbn [existsb]. by rewrite orb_false_r. Qed.

(** C8. A single-end call of [run_cutadapt] (truthy [r1_id], falsy
    [r2_id]) with an adapter sequence, that is, an adapter that does not
    itself spell the file name, stages its input as R1.fastq and hands the
    tool ['-a', fwd_3pr_adapter, '-m', '35', '-o', '/data/R1.fastq',
    '/data/R1.fastq'], so the output goes to the name the input was staged
    under; the one file it then passes to [writeGlobalFile] is
    R1_cutadapt.fastq, a name that is nowhere in that command line.  The
    tool is called exactly when the store holds [r1_id]. *)
Theorem run_cutadapt_single_end_output
    (H : host) (r1_id r2_id fwd_3pr_adapter rev_3pr_adapter : pyval) (m : machine) :
  truthy r1_id = true →
  truthy r2_id = false →
  names_file "R1_cutadapt.fastq" [fwd_3pr_adapter] = false →
  let r := run_cutadapt H r1_id r2_id fwd_3pr_adapter rev_3pr_adapter m in
  let dir := local_temp_dir H in
  reads_of r.2 = [(r1_id, os_path_join dir "R1.fastq")] ∧
  match docker_requests r.2 with
  | [] =>
      fetch (file_store m) r1_id = None ∧
      r.1.1 = Raised (NoSuchFileStoreID r1_id) ∧ writes_of r.2 = []
  | [req] =>
      is_Some (fetch (file_store m) r1_id) ∧
      parameters req =
        [VStr "-a"; fwd_3pr_adapter; VStr "-m"; VStr "35";
         VStr "-o"; VStr "/data/R1.fastq"; VStr "/data/R1.fastq"] ∧
      names_file "R1_cutadapt.fastq" (parameters req) = false ∧
      (writes_of r.2 = [os_path_join dir "R1_cutadapt.fastq"] ∨
       r.1.1 = Raised (CalledProcessError req) ∧ writes_of r.2 = [])
  | _ => False
  end.
Proof.
  intros Hr1 Hr2 Hadapter. destruct m as [store files].
  unfold run_cutadapt. rewrite Hr1, Hr2. cbn [andb].
  exec_goal; read_trace; cbn [file_store].
  all: split; [done |].
  all: try done.
  all: split; [eauto |]; split; [done |].
  all: split; [| by eauto].
  all: cbn [parameters]; rewrite (names_file_cons _ (VStr "-a")), (names_file_cons _ fwd_3pr_adapter);
    by rewrite Hadapter.
Qed.

Lemma run_cutadapt_single_end_output_witness :
  let r := run_cutadapt demo_host (VStr "r1") VNone (VStr "AGATCGGAAGAGC") VNone
             demo_machine in
  reads_of r.2 = [(VStr "r1", os_path_join "/tmp/job" "R1.fastq")] ∧
  match docker_requests r.2 with
  | [] =>
      fetch (file_store demo_machine) (VStr "r1") = None ∧
      r.1.1 = Raised (NoSuchFileStoreID (VStr "r1")) ∧ writes_of r.2 = []
  | [req] =>
      is_Some (fetch (file_store demo_machine) (VStr "r1")) ∧
      parameters req =
        [VStr "-a"; VStr "AGATCGGAAGAGC"; VStr "-m"; VStr "35";
         VStr "-o"; VStr "/data/R1.fastq"; VStr "/data/R1.fastq"] ∧
      names_file "R1_cutadapt.fastq" (parameters req) = false ∧
      (writes_of r.2 = [os_path_join "/tmp/job" "R1_cutadapt.fastq"] ∨
       r.1.1 = Raised (CalledProcessError req) ∧ writes_of r.2 = [])
  | _ => False
  end.
Proof.
  apply (run_cutadapt_single_end_output demo_host (VStr "r1") VNone (VStr "AGATCGGAAGAGC")
           VNone demo_machine); reflexivity.
Defined.

(** C10. When [run_cutadapt] returns, the second component of the pair is
    [None] exactly when [r1_id] and [r2_id] are not both truthy.  When both
    are truthy, the two components are the IDs that the two
    [writeGlobalFile]s of this call, of R1_cutadapt.fastq and of
    R2_cutadapt.fastq, were issued; otherwise the first component is the ID
    that its one [writeGlobalFile] was issued. *)
Theorem run_cutadapt_result
    (H : host) (r1_id r2_id fwd_3pr_adapter rev_3pr_adapter : pyval) (m m' : machine)
    (t : list event) (r1_cut_id : string) (r2_cut_id : option string) :
  run_cutadapt H r1_id r2_id fwd_3pr_adapter rev_3pr_adapter m =
    (Returned (r1_cut_id, r2_cut_id), m', t) →
  let dir := local_temp_dir H in
  (r2_cut_id = None ↔ truthy r1_id && truthy r2_id = false) ∧
  written t =
    (os_path_join dir "R1_cutadapt.fastq", r1_cut_id) ::
    match r2_cut_id with
    | Some id => [(os_path_join dir "R2_cutadapt.fastq", id)]
    | None => []
    end.
Proof.
  destruct m as [store files]. unfold run_cutadapt.
  exec; intros [= ]; subst; read_trace; done.
Qed.

Lemma run_cutadapt_result_witness :
  let r := run_cutadapt demo_host (VStr "r1") (VStr "r2") (VStr "AGATCGGAAGAGC")
             (VStr "AGATCGGAAGAGC") demo_machine in
  r.1.1 = Returned ("0", Some "1") ∧
  (Some "1" = None ↔ truthy (VStr "r1") && truthy (VStr "r2") = false) ∧
  written r.2 = [("/tmp/job/R1_cutadapt.fastq", "0"); ("/tmp/job/R2_cutadapt.fastq", "1")].
Proof.
  intros r. split; [vm_compute; reflexivity |].
  apply (run_cutadapt_result demo_host (VStr "r1") (VStr "r2") (VStr "AGATCGGAAGAGC")
           (VStr "AGATCGGAAGAGC") demo_machine r.1.2 r.2 "0" (Some "1")).
  vm_compute. reflexivity.
Defined.

(** A single-end call that returns, on the example host. *)
Example run_cutadapt_single_end_returns :
  (run_cutadapt demo_host (VStr "r1") VNone (VStr "AGATCGGAAGAGC") VNone demo_machine).1.1 =
  Returned ("0", None).
Proof. vm_compute. reflexivity. Qed.

(** ** Every wrapper: order of the calls *)

Lemma forallb_is_write_no_docker (t : list event) :
  forallb is_write t = true → docker_requests t = [].
Proof.
  induction t as [| e t IH]; [done |].
  cbn. intros [He Ht]%andb_prop. destruct e; try done. by apply IH.
Qed.

Lemma well_ordered_split (returned : bool) (t : list event) :
  well_ordered returned t = true →
  ∃ before invocation after,
    t = before ++ invocation ++ after ∧
    Forall (λ e, is_docker_call e = false ∧ is_write e = false) before ∧
    (invocation = [] ∨ ∃ req ok, invocation = [DockerCall req ok]) ∧
    Forall (λ e, is_write e = true) after ∧
    (after ≠ [] ∨ returned = true → ∃ req, invocation = [DockerCall req true]) ∧
    docker_requests t = docker_requests invocation.
Proof.
  induction t as [| e t IH].
  - cbn. intros Hret. exists [], [], []. repeat split; auto.
    intros [? | ->]; done.
  - destruct e; cbn [well_ordered]; try done.
    1-4, 6: intros (before & invocation & after & -> & Hb & Hi & Ha & Hc & Hd)%IH;
      eexists (_ :: before), invocation, after;
      repeat split; [by apply Forall_cons | done | done | done | done].
    intros [Hw Hend]%andb_prop.
    exists [], [DockerCall req ok], t. repeat split.
    + constructor.
    + right. eauto.
    + apply Forall_forall. intros e He. rewrite forallb_forall in Hw.
      apply Hw. by apply list_elem_of_In.
    + intros Hor. destruct ok; [eauto |]. cbn in Hend.
      destruct t; [| done]. destruct Hor as [? | ->]; done.
    + change (docker_requests (DockerCall req ok :: t)) with (req :: docker_requests t).
      by rewrite (forallb_is_write_no_docker t Hw).
Qed.

Lemma call_well_ordered (H : host) (c : wrapper_call) (m : machine) :
  well_ordered (is_returned (call H c m).1.1) (call H c m).2 = true.
Proof.
  destruct m as [store files].
  destruct c; unfold call, forget;
    unfold run_cutadapt, run_samtools_faidx, run_samtools_index, samtools_view,
      run_picard_create_sequence_dictionary, picard_sort_sam, picard_mark_duplicates,
      run_realigner_target_creator, run_indel_realignment, run_base_recalibration,
      run_print_reads;
    exec_goal; reflexivity.
Qed.

(** C6, as stated, fails: a paired-end call of [run_cutadapt] without a
    reverse adapter is a call of a wrapper, and it calls the tool not once
    but never. *)
Lemma run_cutadapt_without_reverse_adapter_calls_no_tool :
  let r := call demo_host
             (Call_run_cutadapt (VStr "r1") (VStr "r2") (VStr "AGATCGGAAGAGC") VNone)
             demo_machine in
  docker_requests r.2 = [] ∧ length (docker_requests r.2) ≠ 1%nat.
Proof. vm_compute. split; [reflexivity | discriminate]. Qed.

(** C6, amended. Every call of every wrapper calls the tool at most once,
    and exactly once if it returns.  Its trace is: calls that are neither
    the tool nor a write (so all its reads), then the tool if it got that
    far, then writes only; there are writes only if the tool ran to
    completion, and the call returns only if the tool ran to completion. *)
Theorem wrapper_calls_in_order (H : host) (c : wrapper_call) (m : machine) :
  let r := call H c m in
  (length (docker_requests r.2) ≤ 1)%nat ∧
  (is_returned r.1.1 = true → length (docker_requests r.2) = 1%nat) ∧
  ∃ before invocation after,
    r.2 = before ++ invocation ++ after ∧
    Forall (λ e, is_docker_call e = false ∧ is_write e = false) before ∧
    (invocation = [] ∨ ∃ req ok, invocation = [DockerCall req ok]) ∧
    Forall (λ e, is_write e = true) after ∧
    (after ≠ [] ∨ is_returned r.1.1 = true → ∃ req, invocation = [DockerCall req true]).
Proof.
  intros r.
  destruct (well_ordered_split _ _ (call_well_ordered H c m))
    as (before & invocation & after & Ht & Hb & Hi & Ha & Hc & Hd).
  fold r in Ht, Hc, Hd. rewrite Hd. repeat split.
  - destruct Hi as [-> | (req & ok & ->)]; cbn; lia.
  - intros Hret. destruct Hc as [req ->]; [by right | done].
  - exists before, invocation, after. done.
Qed.

Lemma wrapper_calls_in_order_witness :
  let r := call demo_host
             (Call_samtools_view (VStr "bam") (VStr "0x800") false) demo_machine in
  is_returned r.1.1 = true ∧ length (docker_requests r.2) = 1%nat.
Proof.
  split; [vm_compute; reflexivity |].
  apply (wrapper_calls_in_order demo_host
           (Call_samtools_view (VStr "bam") (VStr "0x800") false) demo_machine).
  vm_compute. reflexivity.
Defined.

(** ** Every wrapper: the file store *)

Lemma second_new_id_is_new (H : host) (store : gmap string string) (id data : string) :
  issues_new_ids H →
  store !! new_file_id H (<[id := data]> store) = None.
Proof.
  intros Hnew. pose proof (Hnew (<[id := data]> store)) as Hnone.
  by apply lookup_insert_None in Hnone as [? _].
Qed.

(** The calls a wrapper itself makes on the store are reads of the IDs it
    was given and writes under IDs the store issues; it never deletes. *)
Lemma wrappers_only_read_and_write (H : host) (c : wrapper_call) (m : machine) :
  issues_new_ids H →
  let r := call H c m in
  Forall (leaves_entries (file_store m) (input_ids c)) r.2 ∧
  Forall (λ e, is_delete e = false) r.2.
Proof.
  intros Hnew. destruct m as [store files].
  destruct c; unfold call, forget;
    unfold run_cutadapt, run_samtools_faidx, run_samtools_index, samtools_view,
      run_picard_create_sequence_dictionary, picard_sort_sam, picard_mark_duplicates,
      run_realigner_target_creator, run_indel_realignment, run_base_recalibration,
      run_print_reads;
    exec_goal; cbn [input_ids fst snd file_store].
  all: split.
  all: try (by repeat (apply Forall_cons; split; [done |]); apply Forall_nil).
  all: repeat (apply Forall_cons; split); try apply Forall_nil; try exact I.
  all: try (cbn [leaves_entries]; by auto using second_new_id_is_new).
  all: cbn [leaves_entries];
    repeat first [exact (list_elem_of_here _ _) | apply list_elem_of_further].
Qed.

(** C7. The code breaks the claim in the single-end call of [run_cutadapt].
    On a host whose trimmer writes where '-o' says, the call reads the
    stored reads of "r1" to R1.fastq in the scratch directory and then
    names that same file, as /data/R1.fastq, as the output of the tool.
    The tool overwrites it, and a store that handed the file out linked,
    not copied, now holds the trimmed reads under "r1".  The call then
    raises, for the R1_cutadapt.fastq it wants to store was never made. *)
Theorem run_cutadapt_single_end_overwrites_staged_input :
  let r := run_cutadapt demo_host_trimmer (VStr "r1") VNone (VStr "AGATCGGAAGAGC") VNone
             demo_machine in
  file_store demo_machine !! "r1" = Some "reads 1" ∧
  reads_of r.2 = [(VStr "r1", "/tmp/job/R1.fastq")] ∧
  output_option <$> (parameters <$> docker_requests r.2) = [Some "/data/R1.fastq"] ∧
  scratch_path "/tmp/job" "/data/R1.fastq" = "/tmp/job/R1.fastq" ∧
  local_files r.1.2 !! "/tmp/job/R1.fastq" = Some "trimmed" ∧
  seen_through_links r.2 r.1.2 !! "r1" = Some "trimmed" ∧
  r.1.1 = Raised (NoSuchLocalFile "/tmp/job/R1_cutadapt.fastq").
Proof. vm_compute. repeat split; reflexivity. Qed.

(** * Beyond the claims *)

(** ** The pipeline wiring, continued *)

(** X1. [run_preprocessing] makes four jobs, run_realigner_target_creator,
    run_indel_realignment, run_base_recalibration and run_print_reads, adds
    the first as a child of the calling job and each later one as the child
    of the job before it, leaves the jobs and pairs that were there as they
    were, and returns the promises of the first and second return value of
    the print-reads job. *)
Theorem run_preprocessing_linear_chain
    (job : nat) (cores bam bai ref ref_dict fai phase mills dbsnp mem : pyval)
    (unsafe : bool) (w : workflow) :
  let r := run_preprocessing job cores bam bai ref ref_dict fai phase mills dbsnp mem
             unsafe w in
  let n := length (jobs w) in
  take n (jobs r.2) = jobs w ∧
  fn <$> drop n (jobs r.2) =
    [fn_run_realigner_target_creator; fn_run_indel_realignment;
     fn_run_base_recalibration; fn_run_print_reads] ∧
  children r.2 = children w ++ [(job, n); (n, n + 1); (n + 1, n + 2); (n + 2, n + 3)]%nat ∧
  r.1 = (Promise (n + 3) [0%nat], Promise (n + 3) [1%nat]).
Proof.
  destruct w as [js cs]. cbn -[take drop].
  unfold gbind, wrapJobFn, addChild, gret. cbn -[take drop].
  rewrite !length_app. cbn [length]. rewrite <- !app_assoc. cbn [app].
  repeat split.
  - by rewrite take_app_length.
  - by rewrite drop_app_length.
  - by rewrite !Nat.add_1_r, !Nat.add_succ_r, !Nat.add_0_r.
  - by rewrite !Nat.add_1_r, !Nat.add_succ_r, Nat.add_0_r.
Qed.

(** X2. In both builders a job is only given promises of jobs the same call
    made before it, so of jobs above it in the chain: counted from the first
    new job, the jobs of [run_gatk_preprocessing] consume the promises of
    none, 0, 1 1, 2 2, 3, 4 4 and 5 4 4, and those of [run_preprocessing] of
    none, 0, 1 1 and 2 1 1. *)
Theorem promises_come_from_earlier_jobs
    (job : nat) (cores bam bai ref ref_dict fai phase mills dbsnp mem : pyval)
    (unsafe mock : bool) (w : workflow) :
  let n := length (jobs w) in
  let gatk := (run_gatk_preprocessing job cores bam bai ref ref_dict fai phase mills dbsnp mem
                 unsafe mock w).2 in
  let plain := (run_preprocessing job cores bam bai ref ref_dict fai phase mills dbsnp mem
                  unsafe w).2 in
  promised_jobs <$> drop n (jobs gatk) =
    [[]; [n]; [n + 1; n + 1]; [n + 2; n + 2]; [n + 3]; [n + 4; n + 4];
     [n + 5; n + 4; n + 4]]%nat ∧
  promised_jobs <$> drop n (jobs plain) =
    [[]; [n]; [n + 1; n + 1]; [n + 2; n + 1; n + 1]]%nat ∧
  (∀ i j k, jobs gatk !! (n + i)%nat = Some j → k ∈ promised_jobs j → (n ≤ k < n + i)%nat) ∧
  (∀ i j k, jobs plain !! (n + i)%nat = Some j → k ∈ promised_jobs j → (n ≤ k < n + i)%nat).
Proof.
  destruct w as [js cs]. cbn -[drop].
  unfold gbind, wrapJobFn, addChild, gret. cbn -[drop].
  rewrite !length_app. cbn [length]. rewrite <- !app_assoc. cbn [app].
  rewrite !Nat.add_1_r, !Nat.add_succ_r, !Nat.add_0_r.
  split; [by rewrite drop_app_length |]. split; [by rewrite drop_app_length |].
  split.
  - intros i j k Hj Hk. rewrite lookup_app_r in Hj by lia.
    replace (length js + i - length js)%nat with i in Hj by lia.
    destruct i as [|[|[|[|[|[|[|i]]]]]]]; simplify_eq/=;
      repeat (apply elem_of_cons in Hk as [-> | Hk]; [lia |]); by apply elem_of_nil in Hk.
  - intros i j k Hj Hk. rewrite lookup_app_r in Hj by lia.
    replace (length js + i - length js)%nat with i in Hj by lia.
    destruct i as [|[|[|[|i]]]]; simplify_eq/=;
      repeat (apply elem_of_cons in Hk as [-> | Hk]; [lia |]); by apply elem_of_nil in Hk.
Qed.

Lemma promises_come_from_earlier_jobs_witness : (0 ≤ 5 < 0 + 6)%nat.
Proof.
  pose proof (promises_come_from_earlier_jobs 0 (VInt 4) (VStr "bam") (VStr "bai")
                (VStr "ref") (VStr "dict") (VStr "fai") (VStr "phase") (VStr "mills")
                (VStr "dbsnp") (VStr "10G") false false (Workflow [] [])) as (_ & _ & Hgatk & _).
  eapply (Hgatk 6%nat _ 5%nat); [reflexivity |]. vm_compute. left.
Defined.

(** X3. In both builders the base-recalibration job and the print-reads job
    work on the two outputs promised by the indel-realignment job, and the
    print-reads job on the table promised by the base-recalibration job. *)
Theorem recalibration_reads_realigned_bam
    (job : nat) (cores bam bai ref ref_dict fai phase mills dbsnp mem : pyval)
    (unsafe mock : bool) (w : workflow) :
  let n := length (jobs w) in
  let inputs_of (j : wrapped_job) :=
    (fn j, argument j "table", argument j "indel_bam", argument j "indel_bai") in
  let gatk := (run_gatk_preprocessing job cores bam bai ref ref_dict fai phase mills dbsnp mem
                 unsafe mock w).2 in
  let plain := (run_preprocessing job cores bam bai ref ref_dict fai phase mills dbsnp mem
                  unsafe w).2 in
  fn <$> jobs gatk !! (n + 4)%nat = Some fn_run_indel_realignment ∧
  inputs_of <$> jobs gatk !! (n + 5)%nat =
    Some (fn_run_base_recalibration, None,
          Some (Promise (n + 4) [0%nat]), Some (Promise (n + 4) [1%nat])) ∧
  inputs_of <$> jobs gatk !! (n + 6)%nat =
    Some (fn_run_print_reads, Some (Promise (n + 5) []),
          Some (Promise (n + 4) [0%nat]), Some (Promise (n + 4) [1%nat])) ∧
  fn <$> jobs plain !! (n + 1)%nat = Some fn_run_indel_realignment ∧
  inputs_of <$> jobs plain !! (n + 2)%nat =
    Some (fn_run_base_recalibration, None,
          Some (Promise (n + 1) [0%nat]), Some (Promise (n + 1) [1%nat])) ∧
  inputs_of <$> jobs plain !! (n + 3)%nat =
    Some (fn_run_print_reads, Some (Promise (n + 2) []),
          Some (Promise (n + 1) [0%nat]), Some (Promise (n + 1) [1%nat])).
Proof.
  destruct w as [js cs]. cbn -[argument].
  unfold gbind, wrapJobFn, addChild, gret. cbn -[argument].
  rewrite !length_app. cbn [length]. rewrite <- !app_assoc. cbn [app].
  rewrite !lookup_app_r by lia.
  replace (length js + 1 - length js)%nat with 1%nat by lia.
  replace (length js + 2 - length js)%nat with 2%nat by lia.
  replace (length js + 3 - length js)%nat with 3%nat by lia.
  replace (length js + 4 - length js)%nat with 4%nat by lia.
  replace (length js + 5 - length js)%nat with 5%nat by lia.
  replace (length js + 6 - length js)%nat with 6%nat by lia.
  rewrite !Nat.add_1_r, !Nat.add_succ_r, Nat.add_0_r.
  repeat split; done.
Qed.

(** X4. [run_gatk_preprocessing] hands its [mock] to each of its seven jobs,
    its [mem] to the two Picard jobs as [xmx] and to the four GATK jobs as
    [mem], and its [unsafe] to the four GATK jobs.  [run_preprocessing]
    hands on [mem] and [unsafe] alike but gives none of its four jobs a
    [mock], which leaves them at their default. *)
Theorem modes_are_handed_to_the_jobs
    (job : nat) (cores bam bai ref ref_dict fai phase mills dbsnp mem : pyval)
    (unsafe mock : bool) (w : workflow) :
  let n := length (jobs w) in
  let modes_of (j : wrapped_job) :=
    (argument j "xmx", argument j "mem", argument j "unsafe", argument j "mock") in
  let gatk := (run_gatk_preprocessing job cores bam bai ref ref_dict fai phase mills dbsnp mem
                 unsafe mock w).2 in
  let plain := (run_preprocessing job cores bam bai ref ref_dict fai phase mills dbsnp mem
                  unsafe w).2 in
  let picard := (Some (Const mem), None, None, Some (Const (VBool mock))) in
  let gatk_mode := (None, Some (Const mem), Some (Const (VBool unsafe))) in
  modes_of <$> drop n (jobs gatk) =
    [(None, None, None, Some (Const (VBool mock))); picard; picard;
     (gatk_mode, Some (Const (VBool mock))); (gatk_mode, Some (Const (VBool mock)));
     (gatk_mode, Some (Const (VBool mock))); (gatk_mode, Some (Const (VBool mock)))] ∧
  modes_of <$> drop n (jobs plain) =
    [(gatk_mode, None); (gatk_mode, None); (gatk_mode, None); (gatk_mode, None)].
Proof.
  destruct w as [js cs]. cbn -[drop argument].
  unfold gbind, wrapJobFn, addChild, gret. cbn -[drop argument].
  rewrite <- !app_assoc. cbn [app]. rewrite !drop_app_length.
  done.
Qed.

(** ** The loop that stages the inputs *)

Lemma read_inputs_cons (dir : string) (id : pyval) (name : string)
    (rest : list (pyval * string)) (m : machine) :
  read_inputs dir ((id, name) :: rest) m =
  match fetch (file_store m) id with
  | Some data =>
      let r := read_inputs dir rest
                 (Machine (file_store m) (<[os_path_join dir name := data]> (local_files m))) in
      (r.1.1, r.1.2, ReadGlobalFile id (os_path_join dir name) true :: r.2)
  | None =>
      (Raised (NoSuchFileStoreID id), m, [ReadGlobalFile id (os_path_join dir name) false])
  end.
Proof.
  cbn [read_inputs]. unfold bind, readGlobalFile.
  destruct (fetch (file_store m) id); [| done].
  by destruct (read_inputs _ _ _) as [[[] ?] ?].
Qed.

(** X5. The staging loop stops at the first ID the store does not hold: it
    raises for that ID, having read the files before it and none after it,
    and leaves the file store as it was. *)
Theorem read_inputs_stops_at_first_missing
    (dir : string) (before after : list (pyval * string)) (id : pyval) (name : string)
    (m : machine) :
  Forall (stored (file_store m)) before →
  fetch (file_store m) id = None →
  let r := read_inputs dir (before ++ (id, name) :: after) m in
  r.1.1 = Raised (NoSuchFileStoreID id) ∧
  r.2 = (read_ok dir <$> before) ++ [ReadGlobalFile id (os_path_join dir name) false] ∧
  file_store r.1.2 = file_store m.
Proof.
  revert m. induction before as [| [id0 name0] before IH]; intros m Hbefore Hid.
  - cbn [app]. rewrite read_inputs_cons, Hid. done.
  - apply Forall_cons in Hbefore as [[data Hdata] Hbefore].
    cbn [app]. rewrite read_inputs_cons. cbn [fst] in Hdata. rewrite Hdata.
    destruct (IH (Machine (file_store m) (<[os_path_join dir name0 := data]> (local_files m)))
                Hbefore Hid) as (Hout & Htrace & Hstore).
    cbn [fst snd]. rewrite Hout, Htrace, Hstore. done.
Qed.

Lemma read_inputs_stops_at_first_missing_witness :
  let r := read_inputs "/tmp/job"
             ([(VStr "ref", "ref.fasta")] ++ (VStr "absent", "ref.fasta.fai") ::
              [(VStr "dict", "ref.dict")]) demo_machine in
  r.1.1 = Raised (NoSuchFileStoreID (VStr "absent")) ∧
  r.2 = (read_ok "/tmp/job" <$> [(VStr "ref", "ref.fasta")]) ++
        [ReadGlobalFile (VStr "absent") (os_path_join "/tmp/job" "ref.fasta.fai") false] ∧
  file_store r.1.2 = file_store demo_machine.
Proof.
  apply (read_inputs_stops_at_first_missing "/tmp/job" [(VStr "ref", "ref.fasta")]
           [(VStr "dict", "ref.dict")] (VStr "absent") "ref.fasta.fai" demo_machine).
  - repeat constructor. vm_compute. eauto.
  - vm_compute. reflexivity.
Defined.

(** X6. When the store holds every ID, the staging loop returns, having
    read each file in order and left the file store as it was.  Each file is
    then in the scratch directory under its name with the data the store
    holds for its ID, unless a later pair of the list was staged to the same
    path, and no other local file has changed. *)
Theorem read_inputs_stages_every_file
    (dir : string) (pairs : list (pyval * string)) (m : machine) :
  Forall (stored (file_store m)) pairs →
  let r := read_inputs dir pairs m in
  r.1.1 = Returned () ∧
  r.2 = read_ok dir <$> pairs ∧
  file_store r.1.2 = file_store m ∧
  (∀ i id name,
     pairs !! i = Some (id, name) →
     (∀ j p, (i < j)%nat → pairs !! j = Some p →
             os_path_join dir p.2 ≠ os_path_join dir name) →
     local_files r.1.2 !! os_path_join dir name = fetch (file_store m) id) ∧
  (∀ path,
     (∀ p, p ∈ pairs → os_path_join dir p.2 ≠ path) →
     local_files r.1.2 !! path = local_files m !! path).
Proof.
  revert m. induction pairs as [| [id0 name0] pairs IH]; intros m Hall.
  - cbn. do 3 (split; [done |]). split; [| done].
    intros i id name Hi. by rewrite lookup_nil in Hi.
  - apply Forall_cons in Hall as [[data Hdata] Hall]. cbn [fst] in Hdata.
    intros r. unfold r. rewrite read_inputs_cons, Hdata.
    destruct (IH (Machine (file_store m) (<[os_path_join dir name0 := data]> (local_files m)))
                Hall) as (Hout & Htrace & Hstore & Hstaged & Hframe).
    cbn [fst snd file_store local_files] in *.
    split; [done |]. split; [by rewrite Htrace |]. split; [done |]. split.
    + intros [| i] id name Hi Hlater.
      * injection Hi as -> ->. rewrite Hframe.
        -- by rewrite lookup_insert_eq.
        -- intros p [k Hk]%list_elem_of_lookup. apply (Hlater (S k) p); [lia | done].
      * apply (Hstaged i id name Hi). intros j p Hj Hp. apply (Hlater (S j) p); [lia | done].
    + intros path Hpath. rewrite Hframe.
      * apply lookup_insert_ne. apply (Hpath (id0, name0)). left.
      * intros p Hp. apply Hpath. by right.
Qed.

Lemma read_inputs_stages_every_file_witness :
  let r := read_inputs "/tmp/job" [(VStr "ref", "ref.fasta"); (VStr "fai", "ref.fasta.fai")]
             demo_machine in
  r.1.1 = Returned () ∧
  local_files r.1.2 !! os_path_join "/tmp/job" "ref.fasta" = Some "genome".
Proof.
  destruct (read_inputs_stages_every_file "/tmp/job"
              [(VStr "ref", "ref.fasta"); (VStr "fai", "ref.fasta.fai")] demo_machine)
    as (Hout & _ & _ & Hstaged & _).
  - repeat constructor; vm_compute; eauto.
  - split; [exact Hout |].
    rewrite (Hstaged 0%nat (VStr "ref") "ref.fasta" eq_refl); [vm_compute; reflexivity |].
    intros [| [| j]] p Hj Hp; [lia | | done].
    injection Hp as <-. vm_compute. discriminate.
Defined.

(** ** Every wrapper: what the tool is told *)

(** Unfold a call of any wrapper down to its first [bind]. *)
Ltac open_call :=
  unfold call, call_ids, forget;
  unfold run_cutadapt, run_samtools_faidx, run_samtools_index, samtools_view,
    run_picard_create_sequence_dictionary, picard_sort_sam, picard_mark_duplicates,
    run_realigner_target_creator, run_indel_realignment, run_base_recalibration,
    run_print_reads.

(** Split on the one request of an explicit trace. *)
Ltac one_request :=
  first [ by intros ? ?%elem_of_nil | intros ? ->%list_elem_of_singleton ].

(** X7. A wrapper that has a memory argument ([xmx] or [mem]) gives the tool
    the environment JAVA_OPTS=-Xmx followed by that argument, and nothing
    else; a wrapper without one (cutadapt and the three samtools wrappers)
    gives the tool no environment.  A wrapper that has a [mock] argument
    hands it on; [run_cutadapt] and [run_samtools_index] have none and
    leave it out.  The working directory it names is the scratch directory
    it was given. *)
Theorem tool_environment (H : host) (c : wrapper_call) (m : machine) :
  ∀ req, req ∈ docker_requests (call H c m).2 →
    env req = (λ v, [("JAVA_OPTS", "-Xmx" +:+ str v)]) <$> heap_argument c ∧
    mock req = mock_argument c ∧
    work_dir req = local_temp_dir H.
Proof.
  destruct m as [store files].
  destruct c; open_call; exec_goal; read_trace; one_request; done.
Qed.

Lemma tool_environment_witness :
  (env <$> docker_requests
     (call demo_host (Call_picard_sort_sam (VStr "bam") (VStr "10G") true) demo_machine).2) !!
    0%nat = Some (Some [("JAVA_OPTS", "-Xmx10G")]).
Proof.
  destruct (docker_requests
              (call demo_host (Call_picard_sort_sam (VStr "bam") (VStr "10G") true)
                 demo_machine).2) as [| req reqs] eqn:Hreqs; [by vm_compute in Hreqs |].
  destruct (tool_environment demo_host (Call_picard_sort_sam (VStr "bam") (VStr "10G") true)
              demo_machine req) as (Henv & _ & _).
  - rewrite Hreqs. left.
  - cbn [fmap list_fmap lookup list_lookup]. by rewrite Henv.
Defined.

(** X8. When a wrapper calls the tool with declared inputs, the files it
    has read are exactly the declared inputs, in order, each under its name
    in the scratch directory.  When it calls the tool with declared
    outputs, the files it goes on to write are the declared outputs, in
    order and from the scratch directory: all of them if it returns, and
    the first ones up to one that is missing if it does not. *)
Theorem declared_files_are_the_staged_files (H : host) (c : wrapper_call) (m : machine) :
  let r := call H c m in
  let dir := local_temp_dir H in
  ∀ req, req ∈ docker_requests r.2 →
    (∀ names, inputs req = Some names →
       (reads_of r.2).*2 = os_path_join dir <$> names) ∧
    (∀ declared, outputs req = Some declared →
       writes_of r.2 `prefix_of` (os_path_join dir <$> declared.*1) ∧
       (is_returned r.1.1 = true → writes_of r.2 = os_path_join dir <$> declared.*1)).
Proof.
  destruct m as [store files].
  destruct c; open_call; exec_goal; read_trace; one_request.
  all: split; [by intros names [= <-] | intros declared [= <-]].
  all: split; [by repeat (apply prefix_cons || apply prefix_nil) | done].
Qed.

Lemma declared_files_are_the_staged_files_witness :
  let r := call demo_host
             (Call_samtools_view (VStr "bam") (VStr "0x800") false) demo_machine in
  is_returned r.1.1 = true ∧
  writes_of r.2 = os_path_join "/tmp/job" <$> ["sample.output.bam"].
Proof.
  intros r. split; [vm_compute; reflexivity |].
  destruct (docker_requests r.2) as [| req reqs] eqn:Hreqs; [by vm_compute in Hreqs |].
  destruct (declared_files_are_the_staged_files demo_host
              (Call_samtools_view (VStr "bam") (VStr "0x800") false) demo_machine req)
    as [_ Houtputs].
  - fold r. rewrite Hreqs. left.
  - apply (Houtputs [("sample.output.bam", VNone)]).
    + vm_compute in Hreqs. by injection Hreqs as <- _.
    + vm_compute. reflexivity.
Defined.

(** ** Every wrapper: what reaches the file store *)

Lemma new_ids_differ (H : host) (store : gmap string string) (data : string) :
  issues_new_ids H →
  new_file_id H (<[new_file_id H store := data]> store) ≠ new_file_id H store.
Proof.
  intros Hnew Heq. pose proof (Hnew (<[new_file_id H store := data]> store)) as Hnone.
  rewrite Heq in Hnone. by rewrite lookup_insert_eq in Hnone.
Qed.

(** X9. On a host whose store issues only IDs it does not hold, the IDs a
    wrapper returns are the IDs its writes were issued, in order; they are
    distinct and new to the store, and after the call the store holds under
    each of them the file the tool left at the path that was written. *)
Theorem returned_ids_hold_the_outputs
    (H : host) (c : wrapper_call) (m m' : machine) (t : list event) (ids : list string) :
  issues_new_ids H →
  call_ids H c m = (Returned ids, m', t) →
  (written t).*2 = ids ∧
  (written t).*1 = writes_of t ∧
  NoDup ids ∧
  (∀ id, id ∈ ids → file_store m !! id = None) ∧
  (∀ path id, (path, id) ∈ written t →
     is_Some (local_files m' !! path) ∧ file_store m' !! id = local_files m' !! path).
Proof.
  intros Hnew. destruct m as [store files].
  destruct c; open_call; exec; intros [= ]; subst; read_trace.
  all: do 2 (split; [done |]).
  all: split;
    [ repeat (apply NoDup_cons; split); try apply NoDup_nil;
      rewrite ?elem_of_cons, ?elem_of_nil;
      try (intros [Heq | []]; symmetry in Heq; revert Heq; by apply new_ids_differ);
      tauto |].
  all: split;
    [ intros id Hid; repeat (apply elem_of_cons in Hid as [-> | Hid]);
      [.. | by apply elem_of_nil in Hid]; auto using second_new_id_is_new |].
  all: intros path id Hin; repeat (apply elem_of_cons in Hin as [[= -> ->] | Hin]);
    [.. | by apply elem_of_nil in Hin]; cbn [local_files file_store];
    (split; [eauto |]);
    rewrite ?(lookup_insert_ne _ (new_file_id H (<[_ := _]> _)) (new_file_id H _))
      by (by apply new_ids_differ);
    by rewrite lookup_insert_eq.
Qed.

Lemma returned_ids_hold_the_outputs_witness :
  let r := call_ids demo_host
             (Call_run_cutadapt (VStr "r1") (VStr "r2") (VStr "AGATCGGAAGAGC")
                (VStr "AGATCGGAAGAGC")) demo_machine in
  r.1.1 = Returned ["0"; "1"] ∧ NoDup ["0"; "1"].
Proof.
  intros r. split; [vm_compute; reflexivity |].
  apply (returned_ids_hold_the_outputs demo_host
           (Call_run_cutadapt (VStr "r1") (VStr "r2") (VStr "AGATCGGAAGAGC")
              (VStr "AGATCGGAAGAGC")) demo_machine
           r.1.2 r.2 ["0"; "1"] demo_host_issues_new_ids).
  vm_compute. reflexivity.
Defined.

(** X10. A call of a wrapper takes no ID out of the file store and adds to
    it the IDs its writes were issued, of which there are at most two, and
    no other.  A call that raises for any reason but a missing output file
    has written nothing, and the store holds the IDs it held. *)
Theorem store_grows_by_the_written_ids (H : host) (c : wrapper_call) (m : machine) :
  let r := call H c m in
  dom (file_store r.1.2) = dom (file_store m) ∪ list_to_set (written r.2).*2 ∧
  (length (written r.2) ≤ 2)%nat ∧
  (∀ e, r.1.1 = Raised e → (∀ path, e ≠ NoSuchLocalFile path) →
        written r.2 = [] ∧ writes_of r.2 = [] ∧
        dom (file_store r.1.2) = dom (file_store m)).
Proof.
  destruct m as [store files].
  destruct c; open_call; exec_goal; read_trace; cbn [file_store length list_to_set].
  all: split;
    [ rewrite ?dom_insert_L; apply set_eq; intros x;
      rewrite ?elem_of_union, ?elem_of_singleton, ?elem_of_empty; tauto |].
  all: split; [lia |].
  all: intros e [= <-] Hother; try done; by destruct (Hother _ eq_refl).
Qed.

Lemma store_grows_by_the_written_ids_witness :
  let r := call demo_host_no_index (Call_picard_sort_sam (VStr "absent") (VStr "10G") false)
             demo_machine in
  r.1.1 = Raised (NoSuchFileStoreID (VStr "absent")) ∧
  written r.2 = [] ∧ writes_of r.2 = [] ∧
  dom (file_store r.1.2) = dom (file_store demo_machine).
Proof.
  intros r. split; [vm_compute; reflexivity |].
  destruct (store_grows_by_the_written_ids demo_host_no_index
              (Call_picard_sort_sam (VStr "absent") (VStr "10G") false) demo_machine)
    as (_ & _ & Hraised).
  apply (Hraised (NoSuchFileStoreID (VStr "absent"))); [vm_compute; reflexivity | done].
Defined.

(** X11. [run_cutadapt] declares no output to [docker_call], so that a
    trimmed file the tool did not leave is only missed when it is to be
    written, and storing the outputs is not all or nothing.  When the call
    raises because such a file is missing, the write that went through
    before it is not undone: the file store holds, under the ID it was
    issued, each output written so far, and the missing file is the one
    write that was refused. *)
Theorem missing_output_keeps_earlier_outputs
    (H : host) (r1_id r2_id fwd_3pr_adapter rev_3pr_adapter : pyval) (m : machine)
    (path : string) :
  let r := run_cutadapt H r1_id r2_id fwd_3pr_adapter rev_3pr_adapter m in
  r.1.1 = Raised (NoSuchLocalFile path) →
  outputs <$> docker_requests r.2 = [None] ∧
  writes_of r.2 = (written r.2).*1 ++ [path] ∧
  local_files r.1.2 !! path = None ∧
  ∀ p id, (p, id) ∈ written r.2 →
    is_Some (local_files r.1.2 !! p) ∧ file_store r.1.2 !! id = local_files r.1.2 !! p.
Proof.
  destruct m as [store files].
  unfold run_cutadapt. exec_goal; read_trace; cbn [file_store local_files];
    intros [= <-].
  all: do 3 (split; [done |]).
  all: intros p id Hin; repeat (apply elem_of_cons in Hin as [[= -> ->] | Hin]);
    [.. | by apply elem_of_nil in Hin];
    (split; [eauto | by rewrite lookup_insert_eq]).
Qed.

Lemma missing_output_keeps_earlier_outputs_witness :
  let r := run_cutadapt demo_host_first_read_only (VStr "r1") (VStr "r2")
             (VStr "AGATCGGAAGAGC") (VStr "AGATCGGAAGAGC") demo_machine in
  r.1.1 = Raised (NoSuchLocalFile "/tmp/job/R2_cutadapt.fastq") ∧
  written r.2 = [("/tmp/job/R1_cutadapt.fastq", "0")] ∧
  file_store demo_machine !! "0" = None ∧
  file_store r.1.2 !! "0" = Some "trimmed".
Proof.
  cbv zeta. split; [vm_compute; reflexivity |]. split; [vm_compute; reflexivity |].
  split; [vm_compute; reflexivity |].
  destruct (missing_output_keeps_earlier_outputs demo_host_first_read_only (VStr "r1")
              (VStr "r2") (VStr "AGATCGGAAGAGC") (VStr "AGATCGGAAGAGC") demo_machine
              "/tmp/job/R2_cutadapt.fastq") as (_ & _ & _ & Hkept).
  - vm_compute. reflexivity.
  - destruct (Hkept "/tmp/job/R1_cutadapt.fastq" "0") as [_ ->].
    + vm_compute. left.
    + vm_compute. reflexivity.
Defined.

(** ** Every wrapper: the scratch directory *)

Lemma prefix_append (a b : string) : String.prefix a (a +:+ b) = true.
Proof.
  induction a as [| c a IH]; [by destruct b |].
  change (String c a +:+ b) with (String c (a +:+ b)). cbn [String.prefix].
  destruct (ascii_dec c c); [exact IH | congruence].
Qed.

Lemma os_path_join_under (dir name : string) :
  starts_with_sep name = false →
  String.prefix dir (os_path_join dir name) = true.
Proof.
  intros Hname. unfold os_path_join. rewrite Hname.
  destruct (String.eqb dir "" || ends_with_sep dir); apply prefix_append.
Qed.

(** X12. A wrapper reads files only to, and writes files only from, paths
    made of the scratch directory it was given and a fixed relative name, so
    paths that begin with that directory. *)
Theorem files_stay_in_scratch_directory (H : host) (c : wrapper_call) (m : machine) :
  let r := call H c m in
  Forall (λ path, String.prefix (local_temp_dir H) path = true)
    ((reads_of r.2).*2 ++ writes_of r.2).
Proof.
  destruct m as [store files].
  destruct c; open_call; exec_goal; read_trace; cbn [app].
  all: repeat (apply Forall_cons; split; [by apply os_path_join_under |]); by apply Forall_nil.
Qed.

(** ** The other GATK wrappers *)

(** X13. [run_indel_realignment], [run_base_recalibration] and
    [run_print_reads] read their IDs, in order, to these names: the
    reference to ref.fasta, its index [fai] to ref.fasta.fai and its
    dictionary [ref_dict] to ref.dict, the intervals to sample.intervals,
    the sample to sample.bam and sample.bam.bai, resp. the realigned sample
    to sample.indel.bam and sample.indel.bai, the table to
    sample.recal.table, and the variant files to phase.vcf, mills.vcf and
    dbsnp.vcf.  When the store holds them all, each has read them all by the
    time it calls the tool, which it then does once; when the store lacks
    one, the read of that ID raises, and the wrapper calls no tool and
    writes nothing. *)
Theorem gatk_wrappers_stage_inputs
    (H : host) (m : machine) (unsafe mock : bool)
    (cores intervals table bam bai indel_bam indel_bai : pyval)
    (ref ref_dict fai phase mills dbsnp mem : pyval) :
  let dir := local_temp_dir H in
  let stages {A} (r : outcome A * machine * list event) (staged : list (pyval * string)) :=
    reads_of r.2 `prefix_of` staged ∧
    reaches_tool r (file_store m) staged.*1 (λ _, reads_of r.2 = staged) in
  stages
    (run_indel_realignment H intervals bam bai ref ref_dict fai phase mills mem unsafe mock m)
    [(ref, os_path_join dir "ref.fasta"); (fai, os_path_join dir "ref.fasta.fai");
     (ref_dict, os_path_join dir "ref.dict");
     (intervals, os_path_join dir "sample.intervals");
     (bam, os_path_join dir "sample.bam"); (bai, os_path_join dir "sample.bam.bai");
     (phase, os_path_join dir "phase.vcf"); (mills, os_path_join dir "mills.vcf")] ∧
  stages
    (run_base_recalibration H cores indel_bam indel_bai ref ref_dict fai dbsnp mem unsafe mock m)
    [(ref, os_path_join dir "ref.fasta"); (fai, os_path_join dir "ref.fasta.fai");
     (ref_dict, os_path_join dir "ref.dict");
     (indel_bam, os_path_join dir "sample.indel.bam");
     (indel_bai, os_path_join dir "sample.indel.bai");
     (dbsnp, os_path_join dir "dbsnp.vcf")] ∧
  stages
    (run_print_reads H cores table indel_bam indel_bai ref ref_dict fai mem unsafe mock m)
    [(ref, os_path_join dir "ref.fasta"); (fai, os_path_join dir "ref.fasta.fai");
     (ref_dict, os_path_join dir "ref.dict");
     (table, os_path_join dir "sample.recal.table");
     (indel_bam, os_path_join dir "sample.indel.bam");
     (indel_bai, os_path_join dir "sample.indel.bai")].
Proof.
  destruct m as [store files]. cbv zeta. unfold reaches_tool.
  split; [| split]; open_call; exec_goal; read_trace; cbn [file_store].
  all: split; [by repeat (apply prefix_cons || apply prefix_nil) |].
  all: settle_reaches ltac:(reflexivity).
Qed.

Lemma gatk_wrappers_stage_inputs_witness :
  let r := run_print_reads demo_host (VInt 4) (VStr "mills") (VStr "bam") (VStr "bai")
             (VStr "ref") (VStr "dict") (VStr "fai") (VStr "10G") false false demo_machine in
  ∃ req,
    docker_requests r.2 = [req] ∧
    reads_of r.2 =
      [(VStr "ref", os_path_join "/tmp/job" "ref.fasta");
       (VStr "fai", os_path_join "/tmp/job" "ref.fasta.fai");
       (VStr "dict", os_path_join "/tmp/job" "ref.dict");
       (VStr "mills", os_path_join "/tmp/job" "sample.recal.table");
       (VStr "bam", os_path_join "/tmp/job" "sample.indel.bam");
       (VStr "bai", os_path_join "/tmp/job" "sample.indel.bai")].
Proof.
  destruct (gatk_wrappers_stage_inputs demo_host demo_machine false false
              (VInt 4) (VStr "bam") (VStr "mills") (VStr "bam") (VStr "bai")
              (VStr "bam") (VStr "bai") (VStr "ref") (VStr "dict") (VStr "fai")
              (VStr "phase") (VStr "mills") (VStr "mills") (VStr "10G"))
    as (_ & _ & _ & [Hcalled _]).
  apply Hcalled. repeat (apply Forall_cons; split; [by vm_compute; eauto |]).
  by apply Forall_nil.
Defined.

(** ** Adapter trimming, continued *)



(** X15. In a call of [run_cutadapt] with a falsy [r2_id] the reverse
    adapter plays no part: whatever it is, the call ends the same way, in
    the same machine, after the same calls. *)
Theorem run_cutadapt_single_end_ignores_reverse_adapter
    (H : host) (r1_id r2_id fwd_3pr_adapter rev_3pr_adapter other : pyval) (m : machine) :
  truthy r2_id = false →
  run_cutadapt H r1_id r2_id fwd_3pr_adapter rev_3pr_adapter m =
  run_cutadapt H r1_id r2_id fwd_3pr_adapter other m.
Proof.
  intros Hr2. unfold run_cutadapt. rewrite Hr2, andb_false_r. done.
Qed.

Lemma run_cutadapt_single_end_ignores_reverse_adapter_witness :
  run_cutadapt demo_host (VStr "r1") VNone (VStr "AGATCGGAAGAGC") VNone demo_machine =
  run_cutadapt demo_host (VStr "r1") VNone (VStr "AGATCGGAAGAGC") (VStr "TTTT") demo_machine.
Proof.
  apply (run_cutadapt_single_end_ignores_reverse_adapter demo_host (VStr "r1") VNone
           (VStr "AGATCGGAAGAGC") VNone (VStr "TTTT") demo_machine).
  reflexivity.
Defined.

(** X16. A call of [run_cutadapt] with a falsy [r1_id] takes the single-end
    branch even when [r2_id] is given: the one file it asks the store for is
    [r1_id], it never reads [r2_id], the command it may hand the tool is the
    single-end one, and it returns no second ID. *)
Theorem run_cutadapt_without_first_read
    (H : host) (r1_id r2_id fwd_3pr_adapter rev_3pr_adapter : pyval) (m : machine) :
  truthy r1_id = false →
  let r := run_cutadapt H r1_id r2_id fwd_3pr_adapter rev_3pr_adapter m in
  reads_of r.2 `prefix_of` [(r1_id, os_path_join (local_temp_dir H) "R1.fastq")] ∧
  (fetch (file_store m) r1_id = None → docker_requests r.2 = [] ∧ is_returned r.1.1 = false) ∧
  (∀ req, req ∈ docker_requests r.2 →
     parameters req =
       [VStr "-a"; fwd_3pr_adapter; VStr "-m"; VStr "35";
        VStr "-o"; VStr "/data/R1.fastq"; VStr "/data/R1.fastq"]) ∧
  (∀ ids, r.1.1 = Returned ids → ids.2 = None).
Proof.
  intros Hr1. destruct m as [store files].
  unfold run_cutadapt. rewrite Hr1. cbn [andb].
  exec_goal; read_trace; cbn [file_store].
  all: split; [by repeat (apply prefix_cons || apply prefix_nil) |].
  all: split; [by intros [=] |].
  all: split; [one_request; done |].
  all: by intros ids [= <-].
Qed.

Lemma run_cutadapt_without_first_read_witness :
  let r := run_cutadapt demo_host VNone (VStr "r2") (VStr "AGATCGGAAGAGC")
             (VStr "AGATCGGAAGAGC") demo_machine in
  reads_of r.2 = [(VNone, "/tmp/job/R1.fastq")] ∧
  docker_requests r.2 = [] ∧ is_returned r.1.1 = false.
Proof.
  cbv zeta. split; [vm_compute; reflexivity |].
  apply (run_cutadapt_without_first_read demo_host VNone (VStr "r2") (VStr "AGATCGGAAGAGC")
           (VStr "AGATCGGAAGAGC") demo_machine); reflexivity.
Defined.

(** ** Missing inputs, and stages in sequence *)

(** X17. A wrapper other than [run_cutadapt] calls the tool exactly when the
    store holds every ID it was given.  When the store lacks one, the call
    raises for an ID it was given and the store lacks, and writes nothing. *)
Theorem tool_runs_iff_inputs_are_stored (H : host) (c : wrapper_call) (m : machine) :
  (∀ r1 r2 fwd rev, c ≠ Call_run_cutadapt r1 r2 fwd rev) →
  let r := call H c m in
  (docker_requests r.2 ≠ [] ↔ Forall (λ id, is_Some (fetch (file_store m) id)) (input_ids c)) ∧
  (docker_requests r.2 = [] →
   ∃ id, id ∈ input_ids c ∧ fetch (file_store m) id = None ∧
         r.1.1 = Raised (NoSuchFileStoreID id) ∧ writes_of r.2 = []).
Proof.
  intros Hc. destruct m as [store files].
  destruct c; [by destruct (Hc r1_id r2_id fwd_3pr_adapter rev_3pr_adapter) | ..]; clear Hc.
  all: open_call; exec_goal; read_trace; cbn [file_store input_ids].
  all: split; [split |].
  all: first
    [ done
    | by intros _; repeat (apply Forall_cons; split; [eauto |]); apply Forall_nil
    | by intros Hall; exfalso;
        repeat (apply Forall_cons in Hall as [[? ?] Hall]); congruence
    | intros _; eexists; (split; [| split; [eassumption | done]]);
      repeat first [exact (list_elem_of_here _ _) | apply list_elem_of_further] ].
Qed.

Lemma tool_runs_iff_inputs_are_stored_witness :
  let r := call demo_host
             (Call_picard_mark_duplicates (VStr "bam") (VStr "absent") (VStr "10G") false)
             demo_machine in
  docker_requests r.2 = [] ∧
  ∃ id, id ∈ [VStr "bam"; VStr "absent"] ∧ fetch (file_store demo_machine) id = None ∧
        r.1.1 = Raised (NoSuchFileStoreID id) ∧ writes_of r.2 = [].
Proof.
  cbv zeta. split; [vm_compute; reflexivity |].
  apply (tool_runs_iff_inputs_are_stored demo_host
           (Call_picard_mark_duplicates (VStr "bam") (VStr "absent") (VStr "10G") false)
           demo_machine); [done |].
  vm_compute. reflexivity.
Defined.

(** X18. What [picard_sort_sam] returns, [picard_mark_duplicates] can read:
    run on the machine the sorter left, with the two IDs it returned, the
    duplicate marker finds both in the store and stages them, as
    sample.sorted.bam and sample.sorted.bai, under the very names the sorter
    wrote them from; it raises for no missing ID. *)
Theorem mark_duplicates_reads_what_sort_returned
    (H : host) (bam_id xmx xmx' : pyval) (mock mock' : bool) (m m1 : machine)
    (t1 : list event) (sorted_bam sorted_bai : string) :
  picard_sort_sam H bam_id xmx mock m = (Returned (sorted_bam, sorted_bai), m1, t1) →
  let r := picard_mark_duplicates H (VStr sorted_bam) (VStr sorted_bai) xmx' mock' m1 in
  let dir := local_temp_dir H in
  written t1 = [(os_path_join dir "sample.sorted.bam", sorted_bam);
                (os_path_join dir "sample.sorted.bai", sorted_bai)] ∧
  take 3 r.2 =
    [GetLocalTempDir dir;
     ReadGlobalFile (VStr sorted_bam) (os_path_join dir "sample.sorted.bam") true;
     ReadGlobalFile (VStr sorted_bai) (os_path_join dir "sample.sorted.bai") true] ∧
  docker_requests r.2 ≠ [] ∧
  ∀ id, r.1.1 ≠ Raised (NoSuchFileStoreID id).
Proof.
  destruct m as [store files]. unfold picard_sort_sam.
  exec; intros [= ]; subst; cbv zeta.
  match goal with
  | |- context [Machine ?s1 ?f1] =>
      assert (is_Some (fetch s1 (VStr (new_file_id H store)))) as [d1 Hd1]
        by (cbn [fetch];
            destruct (decide (new_file_id H (<[new_file_id H store := s0]> store) =
                              new_file_id H store)) as [-> | Hne];
            [rewrite lookup_insert_eq | rewrite lookup_insert_ne, lookup_insert_eq by done];
            eauto);
      assert (is_Some (fetch s1 (VStr (new_file_id H (<[new_file_id H store := s0]> store)))))
        as [d2 Hd2] by (cbn [fetch]; rewrite lookup_insert_eq; eauto)
  end.
  unfold picard_mark_duplicates. exec_open. exec_reduce.
  rewrite Hd1. exec_reduce. rewrite Hd2. exec_reduce.
  repeat (exec_split; exec_reduce); read_trace; cbn [take]; done.
Qed.

Lemma mark_duplicates_reads_what_sort_returned_witness :
  let sorted := picard_sort_sam demo_host_sorter (VStr "bam") (VStr "10G") false demo_machine in
  let r := picard_mark_duplicates demo_host_sorter (VStr "0") (VStr "1") (VStr "10G") false
             sorted.1.2 in
  sorted.1.1 = Returned ("0", "1") ∧
  take 3 r.2 =
    [GetLocalTempDir "/tmp/job";
     ReadGlobalFile (VStr "0") (os_path_join "/tmp/job" "sample.sorted.bam") true;
     ReadGlobalFile (VStr "1") (os_path_join "/tmp/job" "sample.sorted.bai") true].
Proof.
  cbv zeta. split; [vm_compute; reflexivity |].
  apply (mark_duplicates_reads_what_sort_returned demo_host_sorter (VStr "bam") (VStr "10G")
           (VStr "10G") false false demo_machine
           (picard_sort_sam demo_host_sorter (VStr "bam") (VStr "10G") false demo_machine).1.2
           (picard_sort_sam demo_host_sorter (VStr "bam") (VStr "10G") false demo_machine).2
           "0" "1").
  vm_compute. reflexivity.
Defined.
